(** * NBA data lake set-up script (src/nba_data_lake.py): a shallow embedding

    The script provisions an S3 bucket, a Glue database and table and an
    Athena output location, and loads one dataset fetched over HTTP.  It
    is a sequence of calls to external services wrapped in [try]/[except]
    blocks, so the embedding is a small state-and-exception monad:

    - the state holds the external world (an arbitrary type [W] with an
      arbitrary response function) and the chronological log of what the
      script did: lines printed, sleeps, and calls issued to boto3 and
      requests;
    - an exception is a class of the Python hierarchy plus its message;
      [try_except] picks the first handler whose class is a superclass of
      the raised one, as Python does;
    - Python values ([None], [bool], [int], [str], [list], [dict] and
      objects json cannot encode) are an inductive type, [json.dumps] and
      [json.loads] are functions on it; a list that holds itself is a
      second kind of argument of the transcoder;
    - the three clients are built when the module is loaded, before
      [main] runs. *)

From Stdlib Require Import String Ascii List ZArith NArith Bool Lia.
From Stdlib Require Import DecimalString DecimalZ.
From Stdlib Require DecimalPos DecimalFacts.
Import ListNotations.
Local Open Scope string_scope.

Set Implicit Arguments.
Set Warnings "-register-all".

(** ** Python values *)

(** [PObject t] is an instance of a class [t] that json has no encoder
    for and whose [__bool__] and [__iter__] are those of [object]
    (truthy, not iterable).  A [str] is a sequence of code points below
    256; a [dict] keeps insertion order and has [str] keys. Floats are
    not modelled. *)
Inductive pyval : Type :=
| PNone
| PBool (b : bool)
| PInt (z : Z)
| PStr (s : string)
| PList (items : list pyval)
| PDict (pairs : list (string * pyval))
| PObject (type_name : string).

(** [str(x)] for a configuration value read with [os.getenv], which is a
    [str] or [None]; this is what an f-string interpolates. *)
Definition py_str (x : option string) : string :=
  match x with
  | Some s => s
  | None => "None"
  end.

(** [x == s] for a configuration value [x] and a [str] literal [s]. *)
Definition py_eq_str (x : option string) (s : string) : bool :=
  match x with
  | Some r => (r =? s)%string
  | None => false
  end.

(** Truth value of an object, as tested by [if nba_data:]. *)
Definition py_bool (v : pyval) : bool :=
  match v with
  | PNone => false
  | PBool b => b
  | PInt z => negb (z =? 0)%Z
  | PStr s => negb (s =? "")
  | PList items => match items with [] => false | _ => true end
  | PDict pairs => match pairs with [] => false | _ => true end
  | PObject _ => true
  end.

Definition type_name_of (v : pyval) : string :=
  match v with
  | PNone => "NoneType"
  | PBool _ => "bool"
  | PInt _ => "int"
  | PStr _ => "str"
  | PList _ => "list"
  | PDict _ => "dict"
  | PObject t => t
  end.

(** ** Exceptions *)

(** The classes the script names or that its libraries raise, all below
    [Exception] ([KeyboardInterrupt] and [SystemExit] are not failures of
    a step and are not modelled).  [AlreadyExistsException] is the Glue
    one, [BucketAlreadyOwnedByYou] and [BucketAlreadyExists] the S3 ones,
    [ConnectionError], [Timeout] and [HTTPError] those of requests. *)
Inductive exn_class : Type :=
| Exception
| TypeError
| ValueError
| OSError
| BotoCoreError
| NoCredentialsError
| PartialCredentialsError
| EndpointConnectionError
| ParamValidationError
| ClientError
| BucketAlreadyOwnedByYou
| BucketAlreadyExists
| AlreadyExistsException
| RequestException
| HTTPError
| ConnectionError
| MissingSchema
| Timeout
| ConnectTimeout
| ReadTimeout
| InvalidJSONError
| JSONDecodeError.

Scheme Equality for exn_class.

(** Direct base classes, from the class statements of builtins,
    botocore.exceptions and requests.exceptions. *)
Definition bases (c : exn_class) : list exn_class :=
  match c with
  | Exception => []
  | TypeError | ValueError | OSError => [Exception]
  | BotoCoreError | ClientError => [Exception]
  | NoCredentialsError | PartialCredentialsError => [BotoCoreError]
  | EndpointConnectionError | ParamValidationError => [BotoCoreError]
  | BucketAlreadyOwnedByYou | BucketAlreadyExists => [ClientError]
  | AlreadyExistsException => [ClientError]
  | RequestException => [OSError]
  | HTTPError | ConnectionError | Timeout | InvalidJSONError =>
      [RequestException]
  | MissingSchema => [RequestException; ValueError]
  | ConnectTimeout => [ConnectionError; Timeout]
  | ReadTimeout => [Timeout]
  | JSONDecodeError => [InvalidJSONError; ValueError]
  end.

Fixpoint issubclass_upto (depth : nat) (c d : exn_class) : bool :=
  exn_class_beq c d ||
  match depth with
  | O => false
  | S depth' => existsb (fun b => issubclass_upto depth' b d) (bases c)
  end.

(** The hierarchy above is five levels deep. *)
Definition issubclass (c d : exn_class) : bool := issubclass_upto 5 c d.

Record exn : Type := MkExn { exn_cls : exn_class; exn_msg : string }.

(** [str(e)] *)
Definition exn_str (e : exn) : string := exn_msg e.

Definition isinstance (e : exn) (c : exn_class) : bool :=
  issubclass (exn_cls e) c.

(** Outcome of evaluating a Python expression or call. *)
Inductive result (A : Type) : Type :=
| Ok (a : A)
| Raise (e : exn).
Arguments Ok {A} a.
Arguments Raise {A} e.

(** ** json.dumps *)

(** The double quote and the characters json names in its escapes. *)
Definition dquote : ascii := "034"%char.
Definition backslash : ascii := "092"%char.
Definition char_bs : ascii := "008"%char.
Definition char_ff : ascii := "012"%char.
Definition char_nl : ascii := "010"%char.
Definition char_cr : ascii := "013"%char.
Definition char_tab : ascii := "009"%char.

Definition hex_digit (n : N) : ascii :=
  match n with
  | 0 => "0" | 1 => "1" | 2 => "2" | 3 => "3" | 4 => "4" | 5 => "5"
  | 6 => "6" | 7 => "7" | 8 => "8" | 9 => "9" | 10 => "a" | 11 => "b"
  | 12 => "c" | 13 => "d" | 14 => "e" | _ => "f"
  end%N%char.

Definition str1 (c : ascii) : string := String c "".

(** One character of [py_encode_basestring_ascii]: the seven named
    escapes, printable ASCII as it is, anything else as [\u00xx]. *)
Definition escape_char (c : ascii) : string :=
  if (c =? dquote)%char then String backslash (str1 dquote)
  else if (c =? backslash)%char then String backslash (str1 backslash)
  else if (c =? char_nl)%char then String backslash "n"
  else if (c =? char_cr)%char then String backslash "r"
  else if (c =? char_tab)%char then String backslash "t"
  else if (c =? char_bs)%char then String backslash "b"
  else if (c =? char_ff)%char then String backslash "f"
  else
    let n := N_of_ascii c in
    if ((32 <=? n) && (n <=? 126))%N then str1 c
    else
      String backslash
        (String "u" (String "0" (String "0"
          (String (hex_digit (n / 16)) (str1 (hex_digit (n mod 16))))))).

Fixpoint escape_chars (s : string) : string :=
  match s with
  | EmptyString => ""
  | String c s' => escape_char c ++ escape_chars s'
  end.

Definition encode_basestring_ascii (s : string) : string :=
  String dquote (escape_chars s ++ str1 dquote).

(** [int.__repr__] *)
Definition repr_int (z : Z) : string := NilZero.string_of_int (Z.to_int z).

(** [", ".join(parts)] and friends are [String.concat]. *)
Definition join (sep : string) (parts : list string) : string :=
  String.concat sep parts.

(** [json.dumps(v)] with the default options: separators [", "] and
    [": "], [ensure_ascii=True], keys in insertion order.  An object
    without encoder raises [TypeError].  The other failure of the
    encoder, the [ValueError] for a container that holds itself, cannot
    occur on a finite tree and is that of [dumps_object] below.  Ints
    are written by [int.__repr__] in full, as an interpreter without
    limit on the conversion does (CPython before 3.11, or with
    [PYTHONINTMAXSTRDIGITS=0]); the nesting of a value is taken to be
    within the recursion limit. *)
Fixpoint json_dumps (v : pyval) : result string :=
  match v with
  | PNone => Ok "null"
  | PBool true => Ok "true"
  | PBool false => Ok "false"
  | PInt z => Ok (repr_int z)
  | PStr s => Ok (encode_basestring_ascii s)
  | PList items =>
      let fix dumps_items (l : list pyval) : result (list string) :=
        match l with
        | [] => Ok []
        | x :: l' =>
            match json_dumps x with
            | Raise e => Raise e
            | Ok s =>
                match dumps_items l' with
                | Raise e => Raise e
                | Ok ss => Ok (s :: ss)
                end
            end
        end in
      match dumps_items items with
      | Raise e => Raise e
      | Ok ss => Ok ("[" ++ join ", " ss ++ "]")
      end
  | PDict pairs =>
      let fix dumps_pairs (l : list (string * pyval)) : result (list string) :=
        match l with
        | [] => Ok []
        | (k, x) :: l' =>
            match json_dumps x with
            | Raise e => Raise e
            | Ok s =>
                match dumps_pairs l' with
                | Raise e => Raise e
                | Ok ss => Ok ((encode_basestring_ascii k ++ ": " ++ s) :: ss)
                end
            end
        end in
      match dumps_pairs pairs with
      | Raise e => Raise e
      | Ok ss => Ok ("{" ++ join ", " ss ++ "}")
      end
  | PObject t =>
      Raise (MkExn TypeError
               ("Object of type " ++ t ++ " is not JSON serializable"))
  end.

(** ** json.loads *)

(** The parser that reads a line back, after json.decoder and
    json.scanner: white space between tokens, the three literals,
    integers, strings with their escapes, arrays and objects.  [None]
    stands for [JSONDecodeError] and for the inputs outside [pyval]
    (a number with a fraction or an exponent, [NaN], an escape above
    code point 255). *)
Definition is_ws (c : ascii) : bool :=
  ((c =? " ") || (c =? char_tab) || (c =? char_nl) || (c =? char_cr))%char.

Fixpoint skip_ws (s : string) : string :=
  match s with
  | EmptyString => ""
  | String c s' => if is_ws c then skip_ws s' else s
  end.

Fixpoint strip_prefix (p s : string) : option string :=
  match p with
  | EmptyString => Some s
  | String a p' =>
      match s with
      | EmptyString => None
      | String b s' => if (a =? b)%char then strip_prefix p' s' else None
      end
  end.

Definition hex_value (c : ascii) : option N :=
  let n := N_of_ascii c in
  if ((48 <=? n) && (n <=? 57))%N then Some (n - 48)%N
  else if ((97 <=? n) && (n <=? 102))%N then Some (n - 87)%N
  else if ((65 <=? n) && (n <=? 70))%N then Some (n - 55)%N
  else None.

(** The character a [\uXXXX] escape denotes. *)
Definition unicode_escape (h1 h2 h3 h4 : ascii) : option ascii :=
  match hex_value h1, hex_value h2, hex_value h3, hex_value h4 with
  | Some a, Some b, Some c, Some d =>
      let code := (((a * 16 + b) * 16 + c) * 16 + d)%N in
      if (code <? 256)%N then Some (ascii_of_N code) else None
  | _, _, _, _ => None
  end.

(** The character a one-letter escape denotes (json.decoder.BACKSLASH). *)
Definition simple_escape (c : ascii) : option ascii :=
  if (c =? dquote)%char then Some dquote
  else if (c =? backslash)%char then Some backslash
  else if (c =? "/")%char then Some "/"%char
  else if (c =? "b")%char then Some char_bs
  else if (c =? "f")%char then Some char_ff
  else if (c =? "n")%char then Some char_nl
  else if (c =? "r")%char then Some char_cr
  else if (c =? "t")%char then Some char_tab
  else None.

(** [scanstring], from just after the opening quote: the decoded string
    and what follows the closing quote. *)
Fixpoint scanstring (s : string) : option (string * string) :=
  match s with
  | EmptyString => None
  | String c r =>
      if (c =? dquote)%char then Some ("", r)
      else if (c =? backslash)%char then
        match r with
        | EmptyString => None
        | String e r1 =>
            if (e =? "u")%char then
              match r1 with
              | String h1 (String h2 (String h3 (String h4 r2))) =>
                  match unicode_escape h1 h2 h3 h4 with
                  | None => None
                  | Some d =>
                      match scanstring r2 with
                      | None => None
                      | Some (str, rest) => Some (String d str, rest)
                      end
                  end
              | _ => None
              end
            else
              match simple_escape e with
              | None => None
              | Some d =>
                  match scanstring r1 with
                  | None => None
                  | Some (str, rest) => Some (String d str, rest)
                  end
              end
        end
      else if (N_of_ascii c <? 32)%N then None
      else
        match scanstring r with
        | None => None
        | Some (str, rest) => Some (String c str, rest)
        end
  end.

Definition is_digit (c : ascii) : bool :=
  ((48 <=? N_of_ascii c) && (N_of_ascii c <=? 57))%N.

(** The longest prefix of digits and the rest. *)
Fixpoint span_digits (s : string) : string * string :=
  match s with
  | EmptyString => ("", "")
  | String c s' =>
      if is_digit c
      then let (ds, rest) := span_digits s' in (String c ds, rest)
      else ("", s)
  end.

(** What NUMBER_RE accepts as an integer: an optional sign and either
    [0] or digits not starting with [0]; a following [.], [e] or [E]
    makes the number a float. *)
Definition strip_sign (s : string) : string * string :=
  match s with
  | EmptyString => ("", s)
  | String c r => if (c =? "-")%char then ("-", r) else ("", s)
  end.

Definition starts_fraction (rest : string) : bool :=
  match rest with
  | EmptyString => false
  | String c _ => ((c =? ".") || (c =? "e") || (c =? "E"))%char
  end.

Definition int_of_digits (sign ds rest : string) : option (Z * string) :=
  match ds with
  | EmptyString => None
  | String d ds' =>
      if (d =? "0")%char && negb (ds' =? "") then None
      else if starts_fraction rest then None
      else option_map (fun i => (Z.of_int i, rest))
             (NilZero.int_of_string (sign ++ ds))
  end.

Definition scan_number (s : string) : option (Z * string) :=
  let (sign, s1) := strip_sign s in
  let (ds, rest) := span_digits s1 in
  int_of_digits sign ds rest.

(** [d[k] = v] on an insertion-ordered dict. *)
Fixpoint dict_set (d : list (string * pyval)) (k : string) (v : pyval) :
    list (string * pyval) :=
  match d with
  | [] => [(k, v)]
  | (k', v') :: d' =>
      if (k' =? k) then (k', v) :: d' else (k', v') :: dict_set d' k v
  end.

(** [dict(pairs)]: a repeated key keeps its first place and its last
    value. *)
Definition dict_of_pairs (l : list (string * pyval)) : list (string * pyval) :=
  fold_left (fun d kv => dict_set d (fst kv) (snd kv)) l [].

(** [scan_once], [JSONArray] and [JSONObject]; [fuel] bounds the number
    of nested calls. *)
Fixpoint scan_once (fuel : nat) (s : string) : option (pyval * string) :=
  match fuel with
  | O => None
  | S fuel' =>
      match s with
      | EmptyString => None
      | String c r =>
          if (c =? dquote)%char then
            match scanstring r with
            | None => None
            | Some (str, rest) => Some (PStr str, rest)
            end
          else if (c =? "{")%char then
            match skip_ws r with
            | EmptyString => None
            | String c1 r1 =>
                if (c1 =? "}")%char then Some (PDict [], r1)
                else
                  match scan_members fuel' (String c1 r1) with
                  | None => None
                  | Some (pairs, rest) =>
                      Some (PDict (dict_of_pairs pairs), rest)
                  end
            end
          else if (c =? "[")%char then
            match skip_ws r with
            | EmptyString => None
            | String c1 r1 =>
                if (c1 =? "]")%char then Some (PList [], r1)
                else
                  match scan_items fuel' (String c1 r1) with
                  | None => None
                  | Some (items, rest) => Some (PList items, rest)
                  end
            end
          else if (c =? "n")%char then
            match strip_prefix "ull" r with
            | Some rest => Some (PNone, rest)
            | None => None
            end
          else if (c =? "t")%char then
            match strip_prefix "rue" r with
            | Some rest => Some (PBool true, rest)
            | None => None
            end
          else if (c =? "f")%char then
            match strip_prefix "alse" r with
            | Some rest => Some (PBool false, rest)
            | None => None
            end
          else
            match scan_number s with
            | Some (z, rest) => Some (PInt z, rest)
            | None => None
            end
      end
  end

with scan_items (fuel : nat) (s : string) : option (list pyval * string) :=
  match fuel with
  | O => None
  | S fuel' =>
      match scan_once fuel' s with
      | None => None
      | Some (v, r) =>
          match skip_ws r with
          | EmptyString => None
          | String c r1 =>
              if (c =? "]")%char then Some ([v], r1)
              else if (c =? ",")%char then
                match scan_items fuel' (skip_ws r1) with
                | None => None
                | Some (items, rest) => Some (v :: items, rest)
                end
              else None
          end
      end
  end

with scan_members (fuel : nat) (s : string) :
    option (list (string * pyval) * string) :=
  match fuel with
  | O => None
  | S fuel' =>
      match s with
      | EmptyString => None
      | String q r =>
          if negb (q =? dquote)%char then None
          else
            match scanstring r with
            | None => None
            | Some (k, r1) =>
                match skip_ws r1 with
                | EmptyString => None
                | String c r2 =>
                    if negb (c =? ":")%char then None
                    else
                      match scan_once fuel' (skip_ws r2) with
                      | None => None
                      | Some (v, r3) =>
                          match skip_ws r3 with
                          | EmptyString => None
                          | String c' r4 =>
                              if (c' =? "}")%char then Some ([(k, v)], r4)
                              else if (c' =? ",")%char then
                                match scan_members fuel' (skip_ws r4) with
                                | None => None
                                | Some (pairs, rest) =>
                                    Some ((k, v) :: pairs, rest)
                                end
                              else None
                          end
                      end
                end
            end
      end
  end.

(** [json.loads(s)]: one value, with nothing but white space around it.
    No value nests deeper than the text is long. *)
Definition json_loads (s : string) : option pyval :=
  match scan_once (S (String.length s)) (skip_ws s) with
  | None => None
  | Some (v, rest) =>
      match skip_ws rest with
      | EmptyString => Some v
      | String _ _ => None
      end
  end.

(** [str.splitlines()] on text whose only line boundary is the newline:
    the lines of the text, a final newline ending the last line rather
    than opening an empty one. *)
Fixpoint splitlines_from (cur : string) (s : string) : list string :=
  match s with
  | EmptyString => match cur with EmptyString => [] | _ => [cur] end
  | String c s' =>
      if (c =? char_nl)%char then cur :: splitlines_from "" s'
      else splitlines_from (cur ++ str1 c) s'
  end.

Definition splitlines (s : string) : list string := splitlines_from "" s.

(** Iterating over a value ([for record in data]): a list gives its
    items, a dict its keys, a str its characters; anything else is not
    iterable. *)
Fixpoint chars_of (s : string) : list pyval :=
  match s with
  | EmptyString => []
  | String c s' => PStr (str1 c) :: chars_of s'
  end.

Definition py_iter (v : pyval) : result (list pyval) :=
  match v with
  | PList items => Ok items
  | PDict pairs => Ok (map (fun kv => PStr (fst kv)) pairs)
  | PStr s => Ok (chars_of s)
  | _ =>
      Raise (MkExn TypeError
               ("'" ++ type_name_of v ++ "' object is not iterable"))
  end.

(** [json.dumps] on each value of a list, left to right, stopping at the
    first exception. *)
Fixpoint dumps_each (records : list pyval) : result (list string) :=
  match records with
  | [] => Ok []
  | record :: rest =>
      match json_dumps record with
      | Raise e => Raise e
      | Ok s =>
          match dumps_each rest with
          | Raise e => Raise e
          | Ok ss => Ok (s :: ss)
          end
      end
  end.

(** The members of a dict, as [json.dumps] writes them. *)
Fixpoint dumps_members (pairs : list (string * pyval)) : result (list string) :=
  match pairs with
  | [] => Ok []
  | (k, x) :: rest =>
      match json_dumps x with
      | Raise e => Raise e
      | Ok s =>
          match dumps_members rest with
          | Raise e => Raise e
          | Ok ss => Ok ((encode_basestring_ascii k ++ ": " ++ s) :: ss)
          end
      end
  end.

(** ** Objects with a reference cycle *)

(** A [pyval] is a finite tree.  A Python list can also hold itself:
    [SelfList items] is the list [l] built by [l = [*items]] followed by
    [l.append(l)].  An argument of the transcoder is either; a value
    without cycle is used as one silently. *)
Inductive pyobj : Type :=
| Acyclic (v : pyval)
| SelfList (items : list pyval).

Coercion Acyclic : pyval >-> pyobj.

(** [for record in data] on any object: the list that holds itself
    gives its items and then itself. *)
Definition iter_object (data : pyobj) : result (list pyobj) :=
  match data with
  | Acyclic v =>
      match py_iter v with
      | Ok records => Ok (map Acyclic records)
      | Raise e => Raise e
      end
  | SelfList items => Ok (map Acyclic items ++ [SelfList items])%list
  end.

(** [json.dumps] on any object.  The encoder writes the items of a list
    in order and raises [ValueError] when it meets a container it is
    already writing; an item without encoder before that place raises
    its [TypeError] first. *)
Definition dumps_object (x : pyobj) : result string :=
  match x with
  | Acyclic v => json_dumps v
  | SelfList items =>
      match dumps_each items with
      | Raise e => Raise e
      | Ok _ => Raise (MkExn ValueError "Circular reference detected")
      end
  end.

(** The list comprehension [[json.dumps(record) for record in data]]
    over any objects. *)
Fixpoint dumps_objects (records : list pyobj) : result (list string) :=
  match records with
  | [] => Ok []
  | record :: rest =>
      match dumps_object record with
      | Raise e => Raise e
      | Ok s =>
          match dumps_objects rest with
          | Raise e => Raise e
          | Ok ss => Ok (s :: ss)
          end
      end
  end.

(** ** Configuration and external calls *)

(** The module-level variables read from the environment; [os.getenv]
    gives [None] for a variable that is not set. *)
Record config : Type := Config {
  region : option string;
  bucket_name : option string;
  glue_database_name : option string;
  api_key : option string;
  nba_endpoint : option string
}.

Definition athena_output_location (cfg : config) : string :=
  "s3://" ++ py_str (bucket_name cfg) ++ "/athena-results/".

(** What [requests.get] returns: the status line and what [json()] will
    give. *)
Record response : Type := Response {
  status_code : Z;
  reason : string;
  url : string;
  json_result : result pyval
}.

(** [Response.raise_for_status] of requests: [HTTPError] for a status in
    400..599, nothing otherwise. *)
Definition raise_for_status (r : response) : result unit :=
  if ((400 <=? status_code r) && (status_code r <? 500))%Z then
    Raise (MkExn HTTPError
             (repr_int (status_code r) ++ " Client Error: " ++ reason r
              ++ " for url: " ++ url r))
  else if ((500 <=? status_code r) && (status_code r <? 600))%Z then
    Raise (MkExn HTTPError
             (repr_int (status_code r) ++ " Server Error: " ++ reason r
              ++ " for url: " ++ url r))
  else Ok tt.

Definition json (r : response) : result pyval := json_result r.

(** The [TableInput] argument of [glue_client.create_table]. *)
Record table_input : Type := TableInput {
  Name : string;
  Columns : list (string * string);
  Location : string;
  InputFormat : string;
  OutputFormat : string;
  SerializationLibrary : string;
  TableType : string
}.

(** The calls the script issues, with their keyword arguments, indexed
    by the type of what they return.  [CreateBucketConfiguration] is
    [None] when the keyword is not passed, [Some r] when it is passed as
    [{"LocationConstraint": r}]. *)
Inductive api : Type -> Type :=
| s3_create_bucket (Bucket : option string)
    (CreateBucketConfiguration : option (option string)) : api unit
| glue_create_database (DbName : option string) (Description : string) :
    api unit
| requests_get (endpoint : option string)
    (headers : list (string * option string)) : api response
| s3_put_object (Bucket : option string) (Key : string) (Body : string) :
    api unit
| glue_create_table (DatabaseName : option string) (input : table_input) :
    api unit
| athena_start_query_execution (QueryString : string)
    (Database : option string) (OutputLocation : string) : api unit.

(** What the script does that is visible from outside, in order. *)
Inductive event : Type :=
| Print (line : string)
| Sleep (seconds : Z)
| Call (R : Type) (a : api R).
Arguments Call {R} a.

(** ** The monad of the script *)

Section Script.

(** The outside world: any state, answering each call with a value or
    an exception and moving to a new state. *)
Variable W : Type.
Variable respond : forall R : Type, api R -> W -> result R * W.
Record state : Type := State { world : W; log : list event }.

Definition M (A : Type) : Type := state -> result A * state.

Definition ret {A} (a : A) : M A := fun st => (Ok a, st).

Definition bind {A B} (m : M A) (k : A -> M B) : M B :=
  fun st =>
    match m st with
    | (Ok a, st') => k a st'
    | (Raise e, st') => (Raise e, st')
    end.

Definition emit (ev : event) : M unit :=
  fun st => (Ok tt, State (world st) (log st ++ [ev])).

Definition print (line : string) : M unit := emit (Print line).

Definition time_sleep (seconds : Z) : M unit := emit (Sleep seconds).

Definition call {R} (a : api R) : M R :=
  fun st =>
    let (r, w') := respond a (world st) in
    (r, State w' (log st ++ [Call a])).

(** A pure computation that may raise. *)
Definition lift {A} (r : result A) : M A := fun st => (r, st).

(** [except] clauses are tried in order; the first whose class the
    exception is an instance of runs, and with none the exception goes
    on to the caller. *)
Fixpoint dispatch {A} (handlers : list (exn_class * (exn -> M A)))
    (e : exn) : M A :=
  match handlers with
  | [] => lift (Raise e)
  | (c, h) :: handlers' =>
      if isinstance e c then h e else dispatch handlers' e
  end.

Definition try_except {A} (body : M A)
    (handlers : list (exn_class * (exn -> M A))) : M A :=
  fun st =>
    match body st with
    | (Ok a, st') => (Ok a, st')
    | (Raise e, st') => dispatch handlers e st'
    end.

End Script.

Declare Scope script_scope.
Delimit Scope script_scope with script.
Notation "x <- m ;; k" := (bind m (fun x => k))
(at level 61, m at next level, right associativity) : script_scope.
Notation "m ;; k" := (bind m (fun _ => k))
(at level 61, right associativity) : script_scope.
Local Open Scope script_scope.

(** ** The functions of the script *)

Section Pipeline.

Variable W : Type.
Variable respond : forall R : Type, api R -> W -> result R * W.
Variable cfg : config.

Definition create_s3_bucket : M W unit :=
  try_except
    ((if py_eq_str (region cfg) "us-east-1"
      then call respond (s3_create_bucket (bucket_name cfg) None)
      else call respond (s3_create_bucket (bucket_name cfg) (Some (region cfg))));;
     print ("S3 bucket '" ++ py_str (bucket_name cfg)
            ++ "' created successfully."))
    [ (BucketAlreadyOwnedByYou, fun _ =>
         print ("S3 bucket '" ++ py_str (bucket_name cfg)
                ++ "' already exists and is owned by you."));
      (NoCredentialsError, fun _ =>
         print "AWS credentials not found. Please configure your credentials.");
      (Exception, fun e =>
         print ("Error creating S3 bucket: " ++ exn_str e)) ].

Definition create_glue_database : M W unit :=
  try_except
    (call respond (glue_create_database (glue_database_name cfg)
             "Glue database for NBA sports analytics.");;
     print ("Glue database '" ++ py_str (glue_database_name cfg)
            ++ "' created successfully."))
    [ (AlreadyExistsException, fun _ =>
         print ("Glue database '" ++ py_str (glue_database_name cfg)
                ++ "' already exists."));
      (Exception, fun e =>
         print ("Error creating Glue database: " ++ exn_str e)) ].

(** Each handler prints and falls out of the [try] statement to the
    final [return []]. *)
Definition fetch_nba_data : M W pyval :=
  try_except
    (let headers := [("Ocp-Apim-Subscription-Key", api_key cfg)] in
     response <- call respond (requests_get (nba_endpoint cfg) headers);;
     lift (raise_for_status response);;
     print "Fetched NBA data successfully.";;
     lift (json response))
    [ (HTTPError, fun http_err =>
         print ("HTTP error occurred: " ++ exn_str http_err);;
         ret (PList []));
      (ConnectionError, fun _ =>
         print "Network connection error. Please check your internet connection.";;
         ret (PList []));
      (Timeout, fun _ =>
         print "Request timed out. Please try again.";;
         ret (PList []));
      (RequestException, fun err =>
         print ("An error occurred: " ++ exn_str err);;
         ret (PList []));
      (Exception, fun e =>
         print ("Error fetching NBA data: " ++ exn_str e);;
         ret (PList [])) ].

Definition convert_to_line_delimited_json (data : pyobj) : M W string :=
  print "Converting data to line-delimited JSON format...";;
  try_except
    (records <- lift (iter_object data);;
     lines <- lift (dumps_objects records);;
     ret (join (str1 char_nl) lines))
    [ (TypeError, fun e =>
         print ("Error converting data to JSON: " ++ exn_str e);;
         ret "") ].

Definition file_key : string := "raw-data/nba_player_data.jsonl".

Definition upload_data_to_s3 (data : pyobj) : M W unit :=
  try_except
    (line_delimited_data <- convert_to_line_delimited_json data;;
     call respond (s3_put_object (bucket_name cfg) file_key line_delimited_data);;
     print ("Uploaded data to S3: " ++ file_key))
    [ (NoCredentialsError, fun _ =>
         print "AWS credentials not found. Please configure your credentials.");
      (Exception, fun e =>
         print ("Error uploading data to S3: " ++ exn_str e)) ].

Definition nba_players_table : table_input :=
  {| Name := "nba_players";
     Columns := [ ("PlayerID", "int");
                  ("FirstName", "string");
                  ("LastName", "string");
                  ("Team", "string");
                  ("Position", "string");
                  ("Points", "int") ];
     Location := "s3://" ++ py_str (bucket_name cfg) ++ "/raw-data/";
     InputFormat := "org.apache.hadoop.mapred.TextInputFormat";
     OutputFormat :=
       "org.apache.hadoop.hive.ql.io.HiveIgnoreKeyTextOutputFormat";
     SerializationLibrary := "org.openx.data.jsonserde.JsonSerDe";
     TableType := "EXTERNAL_TABLE" |}.

Definition create_glue_table : M W unit :=
  try_except
    (call respond (glue_create_table (glue_database_name cfg) nba_players_table);;
     print "Glue table 'nba_players' created successfully.")
    [ (AlreadyExistsException, fun _ =>
         print "Glue table 'nba_players' already exists.");
      (Exception, fun e =>
         print ("Error creating Glue table: " ++ exn_str e)) ].

Definition configure_athena : M W unit :=
  try_except
    (call respond (athena_start_query_execution
             "CREATE DATABASE IF NOT EXISTS nba_analytics"
             (glue_database_name cfg)
             (athena_output_location cfg));;
     print "Athena output location configured successfully.")
    [ (Exception, fun e =>
         print ("Error configuring Athena: " ++ exn_str e)) ].

Definition main : M W unit :=
  print "Starting the data lake setup process...";;
  create_s3_bucket;;
  time_sleep 5;;
  create_glue_database;;
  nba_data <- fetch_nba_data;;
  (if py_bool nba_data
   then upload_data_to_s3 nba_data;;
        create_glue_table;;
        configure_athena
   else ret tt);;
  print "Data lake setup complete.".

(** The module body before the functions: the three clients are built
    with [boto3.client(service, region_name=region)], outside any [try].
    Building a client sends nothing; it reads the credentials the
    environment holds, and may raise. *)
Variable boto3_client : string -> option string -> W -> result unit.




End Pipeline.

(** ** Observing a run *)

(** The pipeline step a call belongs to. *)
Inductive step : Type :=
| StepBucket
| StepDatabase
| StepFetch
| StepUpload
| StepTable
| StepAthena.

Definition step_of {R : Type} (a : api R) : step :=
  match a with
  | s3_create_bucket _ _ => StepBucket
  | glue_create_database _ _ => StepDatabase
  | requests_get _ _ => StepFetch
  | s3_put_object _ _ _ => StepUpload
  | glue_create_table _ _ => StepTable
  | athena_start_query_execution _ _ _ => StepAthena
  end.

(** The external calls of a log, in order, by step. *)
Fixpoint calls_of (l : list event) : list step :=
  match l with
  | [] => []
  | Call a :: l' => step_of a :: calls_of l'
  | _ :: l' => calls_of l'
  end.

(** The bucket creations of a log: the bucket and the
    [CreateBucketConfiguration] of each. *)
Fixpoint calls_of_bucket (l : list event) :
    list (option string * option (option string)) :=
  match l with
  | [] => []
  | Call (s3_create_bucket b c) :: l' => (b, c) :: calls_of_bucket l'
  | _ :: l' => calls_of_bucket l'
  end.

(** The objects a log writes to S3: bucket and key of each put. *)
Fixpoint written_objects (l : list event) : list (option string * string) :=
  match l with
  | [] => []
  | Call (s3_put_object b k _) :: l' => (b, k) :: written_objects l'
  | _ :: l' => written_objects l'
  end.

(** The storage locations a log declares to the catalog. *)
Fixpoint declared_locations (l : list event) : list string :=
  match l with
  | [] => []
  | Call (glue_create_table _ t) :: l' => Location t :: declared_locations l'
  | _ :: l' => declared_locations l'
  end.

(** The queries a log submits to Athena: statement, context database
    and output location of each. *)
Fixpoint athena_requests (l : list event) :
    list (string * option string * string) :=
  match l with
  | [] => []
  | Call (athena_start_query_execution q d o) :: l' =>
      (q, d, o) :: athena_requests l'
  | _ :: l' => athena_requests l'
  end.

Definition issued_statements (l : list event) : list string :=
  map (fun qdo => fst (fst qdo)) (athena_requests l).

(** The configuration with another catalog database name. *)
Definition with_database (cfg : config) (db : option string) : config :=
  {| region := region cfg;
     bucket_name := bucket_name cfg;
     glue_database_name := db;
     api_key := api_key cfg;
     nba_endpoint := nba_endpoint cfg |}.

Definition s3_uri (bucket key : string) : string :=
  "s3://" ++ bucket ++ "/" ++ key.

(** A run from a world with nothing logged yet. *)
Definition run {W A : Type} (m : M W A) (w : W) : result A * state W :=
  m (State w []).

(** Values [json.loads] can give back: no object without encoder, and
    no key twice in a dict (which a Python dict cannot have). *)
Fixpoint distinct (keys : list string) : bool :=
  match keys with
  | [] => true
  | k :: keys' => negb (existsb (String.eqb k) keys') && distinct keys'
  end.

Fixpoint json_value (v : pyval) : bool :=
  match v with
  | PNone | PBool _ | PInt _ | PStr _ => true
  | PList items => forallb json_value items
  | PDict pairs =>
      distinct (map fst pairs)
      && forallb (fun kv => json_value (snd kv)) pairs
  | PObject _ => false
  end.

(** The HTTP requests of a log: endpoint and headers of each. *)
Fixpoint requests_of (l : list event) :
    list (option string * list (string * option string)) :=
  match l with
  | [] => []
  | Call (requests_get u h) :: l' => (u, h) :: requests_of l'
  | _ :: l' => requests_of l'
  end.

(** The pauses of a log, in seconds. *)
Fixpoint sleeps_of (l : list event) : list Z :=
  match l with
  | [] => []
  | Sleep n :: l' => n :: sleeps_of l'
  | _ :: l' => sleeps_of l'
  end.

(** The bodies a log writes to S3. *)
Fixpoint written_bodies (l : list event) : list string :=
  match l with
  | [] => []
  | Call (s3_put_object _ _ body) :: l' => body :: written_bodies l'
  | _ :: l' => written_bodies l'
  end.

(** Number of newline characters of a text. *)
Fixpoint count_newlines (s : string) : nat :=
  match s with
  | EmptyString => 0
  | String c s' =>
      (if (c =? char_nl)%char then 1 else 0) + count_newlines s'
  end.

(** Texts made of printable ASCII characters only (space to tilde). *)
Fixpoint printable_ascii (s : string) : bool :=
  match s with
  | EmptyString => true
  | String c s' =>
      ((32 <=? N_of_ascii c) && (N_of_ascii c <=? 126))%N
      && printable_ascii s'
  end.

(** Values [for record in data] can iterate over. *)
Definition iterable (v : pyval) : bool :=
  match v with
  | PList _ | PDict _ | PStr _ => true
  | _ => false
  end.

(** ** Notions used to state the round trip *)

(** What may follow an integer in a text json.dumps wrote: not a digit
    and not the start of a fraction or an exponent. *)
Definition ends_number (rest : string) : bool :=
  match rest with
  | EmptyString => true
  | String c _ =>
      negb (is_digit c || (c =? ".") || (c =? "e") || (c =? "E"))%char
  end.

(** The characters a JSON value written by json.dumps starts with. *)
Definition starts_value (c : ascii) : bool :=
  (is_digit c || (c =? "-") || (c =? dquote) || (c =? "[") || (c =? "{")
   || (c =? "n") || (c =? "t") || (c =? "f"))%char.

Definition head_is (p : ascii -> bool) (s : string) : bool :=
  match s with
  | EmptyString => false
  | String c _ => p c
  end.

(** The text json.dumps gives for a value it can encode. *)
Definition dumps_text (v : pyval) : string :=
  match json_dumps v with
  | Ok s => s
  | Raise _ => ""
  end.

Definition member_text (kv : string * pyval) : string :=
  encode_basestring_ascii (fst kv) ++ ": " ++ dumps_text (snd kv).

(** Number of constructors of a value, one more for each item or
    member: enough fuel to read its text back. *)
Fixpoint size (v : pyval) : nat :=
  match v with
  | PList items => S (list_sum (map (fun x => S (size x)) items))
  | PDict pairs => S (list_sum (map (fun kv => S (size (snd kv))) pairs))
  | _ => 1
  end.

Fixpoint no_newline (s : string) : bool :=
  match s with
  | EmptyString => true
  | String c s' => negb (c =? char_nl)%char && no_newline s'
  end.

(** ** A model provider *)

(** A small account to run the script against: the credentials boto3
    finds, the buckets of the caller and the bucket names taken by
    others, the catalog, and the answer the sports API will give. *)
Inductive credentials : Type :=
| NoCredentials
| PartialCredentials
| FullCredentials.

Record cloud : Type := Cloud {
  creds : credentials;
  buckets : list string;
  taken : list string;
  databases : list string;
  tables : list (string * string);
  objects : list (string * string * string);
  statements : list string;
  sports_api : result response
}.

Definition mem (x : string) (l : list string) : bool :=
  existsb (String.eqb x) l.

Definition client_error (c : exn_class) (code operation message : string) : exn :=
  MkExn c ("An error occurred (" ++ code ++ ") when calling the "
           ++ operation ++ " operation: " ++ message).


(** Every boto3 call signs its request first, with the credentials its
    client resolved; without any, signing fails.  (With partial
    credentials there is no client to call.) *)
Definition signed {R : Type} (w : cloud) (k : result R * cloud) :
    result R * cloud :=
  match creds w with
  | FullCredentials => k
  | _ => (Raise (MkExn NoCredentialsError "Unable to locate credentials"), w)
  end.

(** What botocore does with an argument that is [None], before it
    signs anything: its validation of the parameters against the
    operation's shape raises [ParamValidationError]; for the [Bucket] of
    an S3 operation a handler that runs earlier applies a regular
    expression to the name, which raises [TypeError]. *)
Definition missing_parameter {R : Type} (w : cloud) (name : string) :
    result R * cloud :=
  (Raise (MkExn ParamValidationError
            ("Parameter validation failed: Invalid type for parameter "
             ++ name)), w).

Definition invalid_bucket_name {R : Type} (w : cloud) : result R * cloud :=
  (Raise (MkExn TypeError
            "expected string or bytes-like object, got 'NoneType'"), w).

(** The answers of the account.  An argument that is [None] is refused
    on the client's side; a call that passes is signed and sent.  S3
    answers the owner who creates a bucket again with
    [BucketAlreadyOwnedByYou], except in us-east-1 (no location
    constraint), where it answers 200. *)
Definition cloud_respond (R : Type) (a : api R) (w : cloud) :
    result R * cloud :=
  match a in api R return result R * cloud with
  | s3_create_bucket None _ => invalid_bucket_name w
  | s3_create_bucket (Some b) (Some None) =>
      missing_parameter w "CreateBucketConfiguration.LocationConstraint"
  | s3_create_bucket (Some b) constraint =>
      signed w
        (if mem b (buckets w) then
           match constraint with
           | None => (Ok tt, w)
           | Some _ =>
               (Raise (client_error BucketAlreadyOwnedByYou
                         "BucketAlreadyOwnedByYou" "CreateBucket"
                         "Your previous request to create the named bucket succeeded and you already own it."),
                w)
           end
         else if mem b (taken w) then
           (Raise (client_error BucketAlreadyExists
                     "BucketAlreadyExists" "CreateBucket"
                     "The requested bucket name is not available."),
            w)
         else
           (Ok tt,
            Cloud (creds w) (b :: buckets w) (taken w) (databases w)
              (tables w) (objects w) (statements w) (sports_api w)))
  | glue_create_database None _ => missing_parameter w "DatabaseInput.Name"
  | glue_create_database (Some d) _ =>
      signed w
        (if mem d (databases w) then
           (Raise (client_error AlreadyExistsException
                     "AlreadyExistsException" "CreateDatabase"
                     "Database already exists."),
            w)
         else
           (Ok tt,
            Cloud (creds w) (buckets w) (taken w) (d :: databases w)
              (tables w) (objects w) (statements w) (sports_api w)))
  | requests_get None _ =>
      (Raise (MkExn MissingSchema
                "Invalid URL 'None': No scheme supplied. Perhaps you meant https://None?"),
       w)
  | requests_get (Some _) _ => (sports_api w, w)
  | s3_put_object None _ _ => invalid_bucket_name w
  | s3_put_object (Some b) k body =>
      signed w
        (if mem b (buckets w) then
           (Ok tt,
            Cloud (creds w) (buckets w) (taken w) (databases w)
              (tables w) ((b, k, body) :: objects w) (statements w)
              (sports_api w))
         else
           (Raise (client_error ClientError "NoSuchBucket" "PutObject"
                     "The specified bucket does not exist"),
            w))
  | glue_create_table None _ => missing_parameter w "DatabaseName"
  | glue_create_table (Some d) t =>
      signed w
        (if negb (mem d (databases w)) then
           (Raise (client_error ClientError "EntityNotFoundException"
                     "CreateTable" "Database not found."),
            w)
         else if existsb
                   (fun dt => (fst dt =? d) && (snd dt =? Name t))
                   (tables w) then
           (Raise (client_error AlreadyExistsException
                     "AlreadyExistsException" "CreateTable"
                     "Table already exists."),
            w)
         else
           (Ok tt,
            Cloud (creds w) (buckets w) (taken w) (databases w)
              ((d, Name t) :: tables w) (objects w) (statements w)
              (sports_api w)))
  | athena_start_query_execution q _ _ =>
      signed w
        (Ok tt,
         Cloud (creds w) (buckets w) (taken w) (databases w) (tables w)
           (objects w) (q :: statements w) (sports_api w))
  end.

(** The two records of the end-to-end scenario. *)
Definition player (id : Z) (first last team position : string) (points : Z) :
    pyval :=
  PDict [ ("PlayerID", PInt id); ("FirstName", PStr first);
          ("LastName", PStr last); ("Team", PStr team);
          ("Position", PStr position); ("Points", PInt points) ].

Definition two_players : list pyval :=
  [ player 1 "A" "B" "X" "G" 10; player 2 "C" "D" "Y" "F" 20 ].

Definition answer (status : Z) (why : string) (body : result pyval) :
    result response :=
  Ok (Response status why "https://api.sportsdata.io/v3/nba/scores/json/Players"
        body).

Definition fresh_account (c : credentials) (api_answer : result response) :
    cloud :=
  Cloud c [] [] [] [] [] [] api_answer.

Definition sample_config : config :=
  {| region := Some "eu-west-1";
     bucket_name := Some "sports-analytics-data-lake";
     glue_database_name := Some "glue_nba_data_lake";
     api_key := Some "0123456789abcdef";
     nba_endpoint :=
       Some "https://api.sportsdata.io/v3/nba/scores/json/Players" |}.

(** * Properties *)

Unset Implicit Arguments.

(** ** Strings *)

Lemma prefix_append (s t : string) : String.prefix s (s ++ t) = true.
Proof.
  induction s as [|c s IH]; simpl.
  - destruct t; reflexivity.
  - destruct (ascii_dec c c) as [_|Hc]; [exact IH | now elim Hc].
Qed.

Lemma append_assoc (s t u : string) : ((s ++ t) ++ u = s ++ (t ++ u))%string.
Proof. induction s as [|c s IH]; simpl; [reflexivity | now rewrite IH]. Qed.

Lemma append_nil_r (s : string) : s ++ "" = s.
Proof. induction s as [|c s IH]; simpl; [reflexivity | now rewrite IH]. Qed.

Lemma length_append (s t : string) :
  String.length (s ++ t) = String.length s + String.length t.
Proof. induction s as [|c s IH]; simpl; [reflexivity | now rewrite IH]. Qed.

(** ** The exception hierarchy *)

Lemma isinstance_Exception (e : exn) : isinstance e Exception = true.
Proof. destruct e as [c m]; destruct c; reflexivity. Qed.

Lemma isinstance_same (e : exn) : isinstance e (exn_cls e) = true.
Proof. destruct e as [c m]; destruct c; reflexivity. Qed.

(** ** Induction on values, and the two container cases of json.dumps *)

Section PyvalInduction.

Variable P : pyval -> Prop.
Hypothesis none_case : P PNone.
Hypothesis bool_case : forall b, P (PBool b).
Hypothesis int_case : forall z, P (PInt z).
Hypothesis str_case : forall s, P (PStr s).
Hypothesis list_case : forall items, Forall P items -> P (PList items).
Hypothesis dict_case :
  forall pairs, Forall (fun kv => P (snd kv)) pairs -> P (PDict pairs).
Hypothesis object_case : forall t, P (PObject t).

Fixpoint pyval_induction (v : pyval) : P v :=
  match v with
  | PNone => none_case
  | PBool b => bool_case b
  | PInt z => int_case z
  | PStr s => str_case s
  | PList items =>
      list_case items
        ((fix all (l : list pyval) : Forall P l :=
            match l with
            | [] => Forall_nil P
            | x :: l' => Forall_cons x (pyval_induction x) (all l')
            end) items)
  | PDict pairs =>
      dict_case pairs
        ((fix all (l : list (string * pyval)) :
            Forall (fun kv => P (snd kv)) l :=
            match l with
            | [] => Forall_nil _
            | kv :: l' =>
                Forall_cons kv (pyval_induction (snd kv)) (all l')
            end) pairs)
  | PObject t => object_case t
  end.

End PyvalInduction.

Lemma json_dumps_list (items : list pyval) :
  json_dumps (PList items) =
  match dumps_each items with
  | Raise e => Raise e
  | Ok ss => Ok ("[" ++ join ", " ss ++ "]")
  end.
Proof.
  simpl.
  match goal with
  | |- match ?F items with _ => _ end = _ =>
      assert (E : forall l, F l = dumps_each l)
  end.
  { induction l as [|x l IH]; simpl; [reflexivity|].
    rewrite IH. reflexivity. }
  rewrite E. reflexivity.
Qed.

Lemma json_dumps_dict (pairs : list (string * pyval)) :
  json_dumps (PDict pairs) =
  match dumps_members pairs with
  | Raise e => Raise e
  | Ok ss => Ok ("{" ++ join ", " ss ++ "}")
  end.
Proof.
  simpl.
  match goal with
  | |- match ?F pairs with _ => _ end = _ =>
      assert (E : forall l, F l = dumps_members l)
  end.
  { induction l as [|[k x] l IH]; simpl; [reflexivity|].
    rewrite IH. reflexivity. }
  rewrite E. reflexivity.
Qed.

(** json.dumps fails in one way only. *)
Lemma json_dumps_raises_TypeError (v : pyval) :
  forall e, json_dumps v = Raise e -> exn_cls e = TypeError.
Proof.
  induction v as [ | b | z | s | items IH | pairs IH | t ]
    using pyval_induction; intros e.
  - discriminate.
  - destruct b; discriminate.
  - discriminate.
  - discriminate.
  - rewrite json_dumps_list.
    assert (forall e', dumps_each items = Raise e' -> exn_cls e' = TypeError)
      as H.
    { induction IH as [|x l Hx _ IHl]; simpl; intros e'; [discriminate|].
      destruct (json_dumps x) as [sx|ex] eqn:Ex.
      - destruct (dumps_each l); [discriminate|].
        intros [= <-]. apply IHl. reflexivity.
      - intros [= <-]. apply Hx. reflexivity. }
    destruct (dumps_each items); [discriminate|].
    intros [= <-]. apply H. reflexivity.
  - rewrite json_dumps_dict.
    assert (forall e', dumps_members pairs = Raise e' -> exn_cls e' = TypeError)
      as H.
    { induction IH as [|[k x] l Hx _ IHl]; simpl; intros e'; [discriminate|].
      simpl in Hx.
      destruct (json_dumps x) as [sx|ex] eqn:Ex.
      - destruct (dumps_members l); [discriminate|].
        intros [= <-]. apply IHl. reflexivity.
      - intros [= <-]. apply Hx. reflexivity. }
    destruct (dumps_members pairs); [discriminate|].
    intros [= <-]. apply H. reflexivity.
  - simpl. intros [= <-]. reflexivity.
Qed.

Lemma dumps_each_raises_TypeError (records : list pyval) :
  forall e, dumps_each records = Raise e -> exn_cls e = TypeError.
Proof.
  induction records as [|x l IH]; simpl; intros e; [discriminate|].
  destruct (json_dumps x) as [sx|ex] eqn:Ex.
  - destruct (dumps_each l); [discriminate|].
    intros [= <-]. apply IH. reflexivity.
  - intros [= <-]. eapply json_dumps_raises_TypeError, Ex.
Qed.

Lemma py_iter_raises_TypeError (v : pyval) :
  forall e, py_iter v = Raise e -> exn_cls e = TypeError.
Proof. destruct v; simpl; intros e; try discriminate; now intros [= <-]. Qed.

Lemma isinstance_of_class (e : exn) (c : exn_class) :
  exn_cls e = c -> isinstance e c = true.
Proof. intros <-. apply isinstance_same. Qed.

(** ** Each step returns, whatever the world answers *)

Section Steps.

Context {W : Type}.
Variable respond : forall R : Type, api R -> W -> result R * W.
Variable cfg : config.

(** What a step that returns normally leaves behind: a longer log, whose
    new part holds exactly the calls [calls]. *)
Definition completes (m : M W unit) (calls : list step) : Prop :=
  forall st, exists st' new,
    m st = (Ok tt, st') /\ log st' = (log st ++ new)%list /\ calls_of new = calls.

Ltac step_unfold :=
  unfold try_except, bind, call, print, time_sleep, emit, lift, ret; simpl.

Ltac by_handlers e :=
  repeat match goal with
  | |- context [isinstance e Exception] => rewrite (isinstance_Exception e)
  | |- context [isinstance e ?c] => destruct (isinstance e c)
  end.

Ltac close_step :=
  simpl; do 2 eexists; split; [reflexivity |];
  simpl; rewrite <- ?app_assoc; simpl; split; reflexivity.

Lemma calls_of_app (l1 l2 : list event) :
  calls_of (l1 ++ l2) = (calls_of l1 ++ calls_of l2)%list.
Proof.
  induction l1 as [|ev l1 IH]; simpl; [reflexivity|].
  destruct ev; simpl; rewrite IH; reflexivity.
Qed.

Lemma print_completes (line : string) : completes (print line) [].
Proof. intros st. step_unfold. close_step. Qed.

Lemma time_sleep_completes (seconds : Z) : completes (time_sleep seconds) [].
Proof. intros st. step_unfold. close_step. Qed.

Lemma ret_completes : completes (ret tt) [].
Proof.
  intros st. exists st, []. rewrite app_nil_r. repeat split.
Qed.

(** Steps that return compose. *)
Lemma seq_completes (m1 m2 : M W unit) (c1 c2 : list step) :
  completes m1 c1 -> completes m2 c2 ->
  completes (m1;; m2) (c1 ++ c2).
Proof.
  intros H1 H2 st.
  destruct (H1 st) as (st1 & n1 & E1 & L1 & C1).
  destruct (H2 st1) as (st2 & n2 & E2 & L2 & C2).
  exists st2, (n1 ++ n2)%list. unfold bind. rewrite E1, E2.
  split; [reflexivity|]. split.
  - rewrite L2, L1, app_assoc. reflexivity.
  - rewrite calls_of_app, C1, C2. reflexivity.
Qed.

Lemma create_s3_bucket_completes :
  completes (create_s3_bucket respond cfg) [StepBucket].
Proof.
  intros st. unfold create_s3_bucket. step_unfold.
  destruct (py_eq_str (region cfg) "us-east-1"); step_unfold;
    destruct (respond _ _ (world st)) as [[[]|e] w'];
    by_handlers e; close_step.
Qed.

Lemma create_glue_database_completes :
  completes (create_glue_database respond cfg) [StepDatabase].
Proof.
  intros st. unfold create_glue_database. step_unfold.
  destruct (respond _ _ (world st)) as [[[]|e] w'];
    by_handlers e; close_step.
Qed.

Lemma create_glue_table_completes :
  completes (create_glue_table respond cfg) [StepTable].
Proof.
  intros st. unfold create_glue_table. step_unfold.
  destruct (respond _ _ (world st)) as [[[]|e] w'];
    by_handlers e; close_step.
Qed.

Lemma configure_athena_completes :
  completes (configure_athena respond cfg) [StepAthena].
Proof.
  intros st. unfold configure_athena. step_unfold.
  destruct (respond _ _ (world st)) as [[[]|e] w'];
    by_handlers e; close_step.
Qed.

(** The fetch always returns a value, after one request. *)
Lemma fetch_nba_data_returns (st : state W) :
  exists nba_data st' new,
    fetch_nba_data respond cfg st = (Ok nba_data, st')
    /\ log st' = (log st ++ new)%list /\ calls_of new = [StepFetch].
Proof.
  unfold fetch_nba_data. step_unfold.
  destruct (respond _ _ (world st)) as [[resp|e] w']; simpl.
  - destruct (raise_for_status resp) as [[]|e]; simpl.
    + destruct (json resp) as [v|e]; simpl.
      * do 3 eexists. split; [reflexivity|]. simpl.
        rewrite <- ?app_assoc. simpl. split; reflexivity.
      * by_handlers e; simpl; do 3 eexists; (split; [reflexivity|]);
          simpl; rewrite <- ?app_assoc; simpl; split; reflexivity.
    + by_handlers e; simpl; do 3 eexists; (split; [reflexivity|]);
        simpl; rewrite <- ?app_assoc; simpl; split; reflexivity.
  - by_handlers e; simpl; do 3 eexists; (split; [reflexivity|]);
      simpl; rewrite <- ?app_assoc; simpl; split; reflexivity.
Qed.

(** On values without cycle the comprehension is [dumps_each]. *)
Lemma dumps_objects_acyclic (records : list pyval) :
  dumps_objects (map Acyclic records) = dumps_each records.
Proof.
  induction records as [|x l IH]; simpl; [reflexivity|].
  rewrite IH. reflexivity.
Qed.

(** The transcoder on any object: the text when every record
    serializes, the empty string when the [for] or a [json.dumps] raises
    a [TypeError], and the exception itself when it is of another
    class. *)
Lemma convert_on_object (data : pyobj) (st : state W) :
  convert_to_line_delimited_json data st =
  match
    match iter_object data with
    | Raise e => Raise e
    | Ok records => dumps_objects records
    end
  with
  | Ok lines =>
      (Ok (join (str1 char_nl) lines),
       State (world st)
         (log st ++ [Print "Converting data to line-delimited JSON format..."]))
  | Raise e =>
      if isinstance e TypeError then
        (Ok "",
         State (world st)
           (log st ++ [Print "Converting data to line-delimited JSON format...";
                       Print ("Error converting data to JSON: " ++ exn_str e)]))
      else
        (Raise e,
         State (world st)
           (log st ++ [Print "Converting data to line-delimited JSON format..."]))
  end.
Proof.
  unfold convert_to_line_delimited_json. step_unfold.
  destruct (iter_object data) as [records|e]; simpl.
  - destruct (dumps_objects records) as [lines|e]; simpl; [reflexivity|].
    destruct (isinstance e TypeError); simpl; [|reflexivity].
    rewrite <- app_assoc. reflexivity.
  - destruct (isinstance e TypeError); simpl; [|reflexivity].
    rewrite <- app_assoc. reflexivity.
Qed.

(** On a value without cycle the transcoder always returns a string and
    calls nothing: the text when every record serializes, the empty
    string otherwise. *)
Lemma convert_returns (data : pyval) (st : state W) :
  convert_to_line_delimited_json data st =
  match py_iter data with
  | Raise e =>
      (Ok "",
       State (world st)
         (log st ++ [Print "Converting data to line-delimited JSON format...";
                     Print ("Error converting data to JSON: " ++ exn_str e)]))
  | Ok records =>
      match dumps_each records with
      | Raise e =>
          (Ok "",
           State (world st)
             (log st ++ [Print "Converting data to line-delimited JSON format...";
                         Print ("Error converting data to JSON: " ++ exn_str e)]))
      | Ok lines =>
          (Ok (join (str1 char_nl) lines),
           State (world st)
             (log st ++ [Print "Converting data to line-delimited JSON format..."]))
      end
  end.
Proof.
  rewrite convert_on_object. cbn [iter_object].
  destruct (py_iter data) as [records|e] eqn:Ei.
  - rewrite dumps_objects_acyclic.
    destruct (dumps_each records) as [lines|e] eqn:Ed; [reflexivity|].
    rewrite (isinstance_of_class e _ (dumps_each_raises_TypeError _ _ Ed)).
    reflexivity.
  - rewrite (isinstance_of_class e _ (py_iter_raises_TypeError _ _ Ei)).
    reflexivity.
Qed.

(** Whatever the transcoder gave, the upload issues its one write. *)
Lemma upload_data_to_s3_writes (data : pyval) (st : state W) :
  exists body st' before line,
    convert_to_line_delimited_json data st
      = (Ok body, State (world st) (log st ++ before))
    /\ upload_data_to_s3 respond cfg data st = (Ok tt, st')
    /\ log st' =
       (log st ++ before
          ++ [Call (s3_put_object (bucket_name cfg) file_key body);
              Print line])%list.
Proof.
  unfold upload_data_to_s3, try_except, bind at 1.
  rewrite convert_returns.
  destruct (py_iter data) as [records|e0]; [destruct (dumps_each records) as [ls|e0]|];
    step_unfold;
    destruct (respond _ _ _) as [[[]|e] w'];
    by_handlers e; simpl; do 4 eexists;
    (split; [reflexivity|]); (split; [reflexivity|]);
    simpl; rewrite <- ?app_assoc; reflexivity.
Qed.

Lemma upload_data_to_s3_completes (data : pyval) :
  completes (upload_data_to_s3 respond cfg data) [StepUpload].
Proof.
  intros st.
  destruct (upload_data_to_s3_writes data st)
    as (body & st' & before & line & Ec & Eu & L).
  exists st'. eexists. split; [exact Eu|]. split; [exact L|].
  rewrite calls_of_app. simpl.
  rewrite convert_returns in Ec.
  destruct (py_iter data) as [records|e0];
    [destruct (dumps_each records) as [ls|e0]|];
    injection Ec as _ Ec; apply app_inv_head in Ec; subst before; reflexivity.
Qed.

(** On any object the upload returns normally: it makes its one call
    when the transcoder returned, and none when the transcoder raised. *)
Lemma upload_data_to_s3_returns (data : pyobj) (st : state W) :
  exists st' new,
    upload_data_to_s3 respond cfg data st = (Ok tt, st')
    /\ log st' = (log st ++ new)%list
    /\ calls_of new =
       match fst (convert_to_line_delimited_json data st) with
       | Ok _ => [StepUpload]
       | Raise _ => []
       end.
Proof.
  unfold upload_data_to_s3, try_except, bind at 1.
  rewrite !convert_on_object.
  destruct (match iter_object data with
            | Raise e1 => Raise e1
            | Ok records => dumps_objects records
            end) as [ls|e0];
    [|destruct (isinstance e0 TypeError)]; cbn [fst].
  - unfold bind, call, print, emit. cbn [world log].
    destruct (respond _ _ (world st)) as [[[]|e] w']; cbn [dispatch].
    + do 2 eexists. split; [reflexivity|]. cbn [log].
      rewrite <- !app_assoc. split; reflexivity.
    + destruct (isinstance e NoCredentialsError);
        [|rewrite isinstance_Exception]; cbn [world log];
        do 2 eexists; (split; [reflexivity|]); cbn [log];
        rewrite <- !app_assoc; split; reflexivity.
  - unfold bind, call, print, emit. cbn [world log].
    destruct (respond _ _ (world st)) as [[[]|e] w']; cbn [dispatch].
    + do 2 eexists. split; [reflexivity|]. cbn [log].
      rewrite <- !app_assoc. split; reflexivity.
    + destruct (isinstance e NoCredentialsError);
        [|rewrite isinstance_Exception]; cbn [world log];
        do 2 eexists; (split; [reflexivity|]); cbn [log];
        rewrite <- !app_assoc; split; reflexivity.
  - cbn [dispatch].
    destruct (isinstance e0 NoCredentialsError);
      [|rewrite isinstance_Exception]; unfold print, emit; cbn [world log];
      do 2 eexists; (split; [reflexivity|]); cbn [log];
      rewrite <- !app_assoc; split; reflexivity.
Qed.

(** ** The orchestrator *)

(** The part of [main] that runs before the fetch, and the part that
    runs on what the fetch returned. *)
Definition before_fetch : M W unit :=
  print "Starting the data lake setup process...";;
  create_s3_bucket respond cfg;;
  time_sleep 5;;
  create_glue_database respond cfg.

Definition after_fetch (nba_data : pyval) : M W unit :=
  (if py_bool nba_data
   then upload_data_to_s3 respond cfg nba_data;;
        create_glue_table respond cfg;;
        configure_athena respond cfg
   else ret tt);;
  print "Data lake setup complete.".

Lemma main_split (st : state W) :
  main respond cfg st =
  (before_fetch;; nba_data <- fetch_nba_data respond cfg;;
   after_fetch nba_data) st.
Proof.
  unfold main, before_fetch, after_fetch, bind.
  destruct (print _ st) as [[[]|e] st0]; [|reflexivity].
  destruct (create_s3_bucket respond cfg st0) as [[[]|e] st1]; [|reflexivity].
  destruct (time_sleep 5 st1) as [[[]|e] st2]; [|reflexivity].
  destruct (create_glue_database respond cfg st2) as [[[]|e] st3];
    reflexivity.
Qed.

Lemma before_fetch_completes :
  completes before_fetch [StepBucket; StepDatabase].
Proof.
  unfold before_fetch.
  change [StepBucket; StepDatabase]
    with ([] ++ [StepBucket] ++ [] ++ [StepDatabase])%list.
  repeat apply seq_completes;
    auto using print_completes, time_sleep_completes,
      create_s3_bucket_completes, create_glue_database_completes.
Qed.

Lemma after_fetch_completes (nba_data : pyval) :
  exists calls,
    (calls = [] \/ calls = [StepUpload; StepTable; StepAthena])
    /\ forall st, exists st' new,
         after_fetch nba_data st = (Ok tt, st')
         /\ log st' = (log st ++ new ++ [Print "Data lake setup complete."])%list
         /\ calls_of new = calls.
Proof.
  assert (completes
            (upload_data_to_s3 respond cfg nba_data;;
             create_glue_table respond cfg;;
             configure_athena respond cfg)
            ([StepUpload] ++ [StepTable] ++ [StepAthena])) as Hthree.
  { repeat apply seq_completes;
      auto using upload_data_to_s3_completes, create_glue_table_completes,
        configure_athena_completes. }
  unfold after_fetch.
  destruct (py_bool nba_data).
  - exists [StepUpload; StepTable; StepAthena]. split; [now right|].
    intros st. destruct (Hthree st) as (st1 & n1 & E1 & L1 & C1).
    exists (State (world st1) (log st1 ++ [Print "Data lake setup complete."])), n1.
    unfold bind at 1. rewrite E1. unfold print, emit. simpl.
    rewrite L1, <- app_assoc. repeat split. exact C1.
  - exists []. split; [now left|].
    intros st.
    exists (State (world st) (log st ++ [Print "Data lake setup complete."])), [].
    repeat split.
Qed.

(** What runs after the fetch makes its three calls when the value
    fetched is truthy and none otherwise. *)
Lemma after_fetch_calls (nba_data : pyval) (st : state W) :
  exists st' new,
    after_fetch nba_data st = (Ok tt, st')
    /\ log st' = (log st ++ new)%list
    /\ calls_of new =
       if py_bool nba_data then [StepUpload; StepTable; StepAthena] else [].
Proof.
  unfold after_fetch. destruct (py_bool nba_data).
  - assert (completes
              ((upload_data_to_s3 respond cfg nba_data;;
                create_glue_table respond cfg;;
                configure_athena respond cfg);;
               print "Data lake setup complete.")
              (([StepUpload] ++ [StepTable] ++ [StepAthena]) ++ [])) as H.
    { repeat apply seq_completes;
        auto using upload_data_to_s3_completes, create_glue_table_completes,
          configure_athena_completes, print_completes. }
    exact (H st).
  - assert (completes (ret tt;; print "Data lake setup complete.")
              ([] ++ [])) as H.
    { apply seq_completes; [apply ret_completes | apply print_completes]. }
    exact (H st).
Qed.

End Steps.

(** ** Properties of the pipeline *)

Section PipelineClaims.

Context {W : Type}.
Variable respond : forall R : Type, api R -> W -> result R * W.
Variable cfg : config.

(** C1.  Whatever the world answers, each of the six steps returns
    normally after its one call: its failure is caught inside it.  (The
    upload also returns normally on a batch its transcoder raises on,
    then without a call.)  And [main] returns normally, its log ending with "Data lake setup
    complete.": its calls are the bucket, the database and the fetch,
    in this order, followed by the upload, the table and the Athena
    configuration exactly when the value fetched is truthy, as a list
    with a record is.  Which calls are made thus depends on the value
    fetched only, and never on which step failed. *)
Theorem main_always_completes (st : state W) :
  completes (create_s3_bucket respond cfg) [StepBucket]
  /\ completes (create_glue_database respond cfg) [StepDatabase]
  /\ (forall s, exists nba_data s' new,
        fetch_nba_data respond cfg s = (Ok nba_data, s')
        /\ log s' = (log s ++ new)%list /\ calls_of new = [StepFetch])
  /\ (forall data : pyval,
        completes (upload_data_to_s3 respond cfg data) [StepUpload])
  /\ (forall (data : pyobj) s, exists s' new,
        upload_data_to_s3 respond cfg data s = (Ok tt, s')
        /\ log s' = (log s ++ new)%list
        /\ calls_of new =
           match fst (convert_to_line_delimited_json data s) with
           | Ok _ => [StepUpload]
           | Raise _ => []
           end)
  /\ completes (create_glue_table respond cfg) [StepTable]
  /\ completes (configure_athena respond cfg) [StepAthena]
  /\ exists st1 st2 nba_data st' between,
       before_fetch respond cfg st = (Ok tt, st1)
       /\ fetch_nba_data respond cfg st1 = (Ok nba_data, st2)
       /\ main respond cfg st = (Ok tt, st')
       /\ log st' =
          (log st ++ between ++ [Print "Data lake setup complete."])%list
       /\ calls_of between =
          ([StepBucket; StepDatabase; StepFetch]
           ++ if py_bool nba_data
              then [StepUpload; StepTable; StepAthena] else [])%list
       /\ (forall record records,
             nba_data = PList (record :: records) ->
             calls_of between =
               [StepBucket; StepDatabase; StepFetch;
                StepUpload; StepTable; StepAthena])
       /\ (nba_data = PList [] ->
           calls_of between = [StepBucket; StepDatabase; StepFetch]).
Proof.
  split; [apply create_s3_bucket_completes|].
  split; [apply create_glue_database_completes|].
  split; [apply fetch_nba_data_returns|].
  split; [apply upload_data_to_s3_completes|].
  split; [apply upload_data_to_s3_returns|].
  split; [apply create_glue_table_completes|].
  split; [apply configure_athena_completes|].
  destruct (before_fetch_completes respond cfg st)
    as (st1 & n1 & E1 & L1 & C1).
  destruct (fetch_nba_data_returns respond cfg st1)
    as (nba_data & st2 & n2 & E2 & L2 & C2).
  destruct (after_fetch_completes respond cfg nba_data)
    as (calls & _ & Hafter).
  destruct (Hafter st2) as (st3 & n3 & E3 & L3 & _).
  destruct (after_fetch_calls respond cfg nba_data st2)
    as (st3' & n3' & E3' & L3' & C3).
  rewrite E3 in E3'. injection E3' as <-.
  rewrite L3 in L3'. apply app_inv_head in L3'. subst n3'.
  rewrite calls_of_app in C3. simpl in C3. rewrite List.app_nil_r in C3.
  assert (calls_of (n1 ++ n2 ++ n3) =
          ([StepBucket; StepDatabase; StepFetch]
           ++ if py_bool nba_data
              then [StepUpload; StepTable; StepAthena] else [])%list)
    as Hcalls by (rewrite !calls_of_app, C1, C2, C3; reflexivity).
  exists st1, st2, nba_data, st3, (n1 ++ n2 ++ n3)%list.
  split; [exact E1|]. split; [exact E2|]. split.
  { rewrite main_split. unfold bind at 1. rewrite E1.
    unfold bind at 1. rewrite E2. exact E3. }
  split; [rewrite L3, L2, L1, <- !app_assoc; reflexivity|].
  split; [exact Hcalls|].
  split; [intros record records ->; exact Hcalls|].
  intros ->. exact Hcalls.
Qed.

(** C2.  In a run where the fetch returns the empty list, [main] does
    nothing after it but print its last line: the calls of the whole
    run are the bucket creation, the database creation and the request,
    and there is no upload, no table creation and no Athena call. *)
Theorem main_skips_rest_on_empty_fetch (st st1 st2 : state W) :
  before_fetch respond cfg st = (Ok tt, st1) ->
  fetch_nba_data respond cfg st1 = (Ok (PList []), st2) ->
  main respond cfg st =
    (Ok tt, State (world st2) (log st2 ++ [Print "Data lake setup complete."]))
  /\ exists new,
       log st2 = (log st ++ new)%list
       /\ calls_of new = [StepBucket; StepDatabase; StepFetch].
Proof.
  intros E1 E2. split.
  - rewrite main_split. unfold bind at 1. rewrite E1.
    unfold bind at 1. rewrite E2. reflexivity.
  - destruct (before_fetch_completes respond cfg st)
      as (st1' & n1 & E1' & L1 & C1).
    rewrite E1 in E1'. injection E1' as <-.
    destruct (fetch_nba_data_returns respond cfg st1)
      as (d & st2' & n2 & E2' & L2 & C2).
    rewrite E2 in E2'. injection E2' as _ <-.
    exists (n1 ++ n2)%list. split.
    + rewrite L2, L1, app_assoc. reflexivity.
    + rewrite calls_of_app, C1, C2. reflexivity.
Qed.

(** The request the fetch sends. *)
Definition players_request : api response :=
  requests_get (nba_endpoint cfg)
    [("Ocp-Apim-Subscription-Key", api_key cfg)].

(** The line [fetch_nba_data] prints for a failed request: that of the
    first of its four clauses the exception is an instance of. *)
Definition fetch_failure_line (e : exn) : string :=
  if isinstance e HTTPError then "HTTP error occurred: " ++ exn_str e
  else if isinstance e ConnectionError then
    "Network connection error. Please check your internet connection."
  else if isinstance e Timeout then "Request timed out. Please try again."
  else "An error occurred: " ++ exn_str e.

(** C3.  When [requests.get] raises an exception that is an instance of
    one of the four classes the function names ([HTTPError],
    [ConnectionError], [Timeout], [RequestException]; so also a
    [ReadTimeout] or a [ConnectTimeout]), and when the response carries
    an error status (400 to 599), for which [raise_for_status] raises an
    [HTTPError], [fetch_nba_data] does not raise: it prints the line of
    the first clause that matches and returns the empty list, the value
    of a fetch of zero records. *)
Theorem fetch_degrades_to_empty (st : state W) (w' : W) :
  (forall e c,
     In c [HTTPError; ConnectionError; Timeout; RequestException] ->
     isinstance e c = true ->
     respond _ players_request (world st) = (Raise e, w') ->
     fetch_nba_data respond cfg st =
       (Ok (PList []),
        State w'
          (log st ++ [Call players_request; Print (fetch_failure_line e)])))
  /\ (forall resp,
        respond _ players_request (world st) = (Ok resp, w') ->
        (400 <= status_code resp < 600)%Z ->
        exists e,
          raise_for_status resp = Raise e
          /\ exn_cls e = HTTPError
          /\ fetch_nba_data respond cfg st =
               (Ok (PList []),
                State w'
                  (log st ++ [Call players_request;
                              Print ("HTTP error occurred: " ++ exn_str e)]))).
Proof.
  split.
  - intros e c Hc He Hget.
    assert (isinstance e RequestException = true) as Hreq.
    { destruct e as [ce msg]. unfold isinstance in *. simpl in *.
      destruct Hc as [<- | [<- | [<- | [<- | []]]]];
        destruct ce; try discriminate He; reflexivity. }
    unfold fetch_nba_data, try_except, bind at 1, call.
    fold players_request. rewrite Hget. cbn [dispatch].
    unfold fetch_failure_line.
    destruct (isinstance e HTTPError);
      [|destruct (isinstance e ConnectionError);
        [|destruct (isinstance e Timeout); [|rewrite Hreq]]];
      unfold bind, print, emit, ret; cbn [world log];
      rewrite <- app_assoc; reflexivity.
  - intros resp Hget Hstatus.
    assert (exists e, raise_for_status resp = Raise e /\ exn_cls e = HTTPError)
      as (e & Hraise & Hcls).
    { unfold raise_for_status.
      destruct (400 <=? status_code resp)%Z eqn:E1; [|lia].
      destruct (status_code resp <? 500)%Z eqn:E2; simpl; [eauto|].
      destruct (500 <=? status_code resp)%Z eqn:E3; [|lia].
      destruct (status_code resp <? 600)%Z eqn:E4; simpl; [eauto|lia]. }
    exists e. split; [exact Hraise|]. split; [exact Hcls|].
    assert (isinstance e HTTPError = true) as Hhttp
      by (apply isinstance_of_class, Hcls).
    unfold fetch_nba_data, try_except, bind at 1, call.
    fold players_request. rewrite Hget.
    unfold bind at 1, lift. rewrite Hraise. cbn [dispatch].
    rewrite Hhttp. unfold bind, print, emit, ret. cbn [world log].
    rewrite <- app_assoc. reflexivity.
Qed.

(** The two forms of the bucket creation call. *)
Definition bucket_request : api unit :=
  if py_eq_str (region cfg) "us-east-1"
  then s3_create_bucket (bucket_name cfg) None
  else s3_create_bucket (bucket_name cfg) (Some (region cfg)).

Lemma create_s3_bucket_on_answer (st : state W) :
  create_s3_bucket respond cfg st =
  let (r, w') := respond _ bucket_request (world st) in
  (Ok tt,
   State w'
     (log st ++
      [Call bucket_request;
       Print
         match r with
         | Ok _ =>
             "S3 bucket '" ++ py_str (bucket_name cfg)
             ++ "' created successfully."
         | Raise e =>
             if isinstance e BucketAlreadyOwnedByYou then
               "S3 bucket '" ++ py_str (bucket_name cfg)
               ++ "' already exists and is owned by you."
             else if isinstance e NoCredentialsError then
               "AWS credentials not found. Please configure your credentials."
             else "Error creating S3 bucket: " ++ exn_str e
         end])).
Proof.
  unfold create_s3_bucket, bucket_request, try_except, bind, call, print,
    emit.
  destruct (py_eq_str (region cfg) "us-east-1"); simpl;
    destruct (respond _ _ (world st)) as [[[]|e] w']; simpl;
    rewrite <- ?app_assoc; try reflexivity;
    (destruct (isinstance e BucketAlreadyOwnedByYou);
     [|destruct (isinstance e NoCredentialsError);
       [|rewrite isinstance_Exception]]);
    simpl; rewrite <- app_assoc; reflexivity.
Qed.


(** The calls that create the database and the table. *)
Definition database_request : api unit :=
  glue_create_database (glue_database_name cfg)
    "Glue database for NBA sports analytics.".

Definition table_request : api unit :=
  glue_create_table (glue_database_name cfg) (nba_players_table cfg).

(** C4.  When the resource is already there, that is when the provider
    answers the creation call with its already-exists error
    ([BucketAlreadyOwnedByYou] for a bucket of the caller,
    [AlreadyExistsException] for a database or a table), the creating
    function returns normally, having printed its "already exists" line
    and not an error line. *)
Theorem already_exists_is_success (st : state W) (e : exn) (w' : W) :
  (respond _ bucket_request (world st) = (Raise e, w') ->
   isinstance e BucketAlreadyOwnedByYou = true ->
   create_s3_bucket respond cfg st =
     (Ok tt,
      State w'
        (log st ++
         [Call bucket_request;
          Print ("S3 bucket '" ++ py_str (bucket_name cfg)
                 ++ "' already exists and is owned by you.")])))
  /\ (respond _ database_request (world st) = (Raise e, w') ->
      isinstance e AlreadyExistsException = true ->
      create_glue_database respond cfg st =
        (Ok tt,
         State w'
           (log st ++
            [Call database_request;
             Print ("Glue database '" ++ py_str (glue_database_name cfg)
                    ++ "' already exists.")])))
  /\ (respond _ table_request (world st) = (Raise e, w') ->
      isinstance e AlreadyExistsException = true ->
      create_glue_table respond cfg st =
        (Ok tt,
         State w'
           (log st ++
            [Call table_request;
             Print "Glue table 'nba_players' already exists."]))).
Proof.
  repeat split; intros Hanswer Hclass.
  - rewrite create_s3_bucket_on_answer, Hanswer, Hclass. reflexivity.
  - unfold create_glue_database, try_except, bind at 1, call.
    fold database_request. rewrite Hanswer. simpl. rewrite Hclass.
    unfold print, emit. simpl. rewrite <- app_assoc. reflexivity.
  - unfold create_glue_table, try_except, bind at 1, call.
    fold table_request. rewrite Hanswer. simpl. rewrite Hclass.
    unfold print, emit. simpl. rewrite <- app_assoc. reflexivity.
Qed.

(** C6.  With the region [us-east-1] the one call [create_s3_bucket]
    issues is [create_bucket(Bucket=bucket_name)], without
    [CreateBucketConfiguration]; with any other region string [r] it is
    [create_bucket(Bucket=bucket_name,
    CreateBucketConfiguration={"LocationConstraint": r})].  Either way
    the function issues exactly one call, and the two calls differ. *)
Theorem region_decides_location_constraint (w : W) :
  (region cfg = Some "us-east-1" ->
   calls_of_bucket (log (snd (run (create_s3_bucket respond cfg) w)))
   = [(bucket_name cfg, None)])
  /\ (forall r, region cfg = Some r -> r <> "us-east-1" ->
      calls_of_bucket (log (snd (run (create_s3_bucket respond cfg) w)))
      = [(bucket_name cfg, Some (Some r))]).
Proof.
  unfold run. split.
  - intros Hregion. rewrite create_s3_bucket_on_answer.
    unfold bucket_request. rewrite Hregion. simpl.
    destruct (respond _ _ _) as [r w']. reflexivity.
  - intros r Hregion Hother. rewrite create_s3_bucket_on_answer.
    unfold bucket_request. rewrite Hregion. simpl.
    apply String.eqb_neq in Hother. rewrite Hother.
    destruct (respond _ _ _) as [r' w']. reflexivity.
Qed.



(** C9.  For every bucket name, the one location [create_glue_table]
    declares is [s3://<bucket>/raw-data/], the one object
    [upload_data_to_s3] writes has the key
    [raw-data/nba_player_data.jsonl] in that same bucket, and the
    declared location is a prefix of the URI of the object written. *)
Theorem declared_location_covers_upload
    (b : string) (data : pyval) (w1 w2 : W) :
  bucket_name cfg = Some b ->
  exists location key,
    declared_locations (log (snd (run (create_glue_table respond cfg) w1)))
      = [location]
    /\ written_objects
         (log (snd (run (upload_data_to_s3 respond cfg data) w2)))
       = [(Some b, key)]
    /\ location = "s3://" ++ b ++ "/raw-data/"
    /\ key = "raw-data/nba_player_data.jsonl"
    /\ String.prefix location (s3_uri b key) = true.
Proof.
  intros Hbucket.
  exists ("s3://" ++ b ++ "/raw-data/"), "raw-data/nba_player_data.jsonl".
  split; [|split; [|split; [reflexivity|split; [reflexivity|]]]].
  - unfold run, create_glue_table, try_except, bind, call, print, emit.
    unfold nba_players_table. rewrite Hbucket. simpl.
    destruct (respond _ _ w1) as [[[]|e] w']; simpl; [reflexivity|].
    destruct (isinstance e AlreadyExistsException);
      [|rewrite isinstance_Exception]; reflexivity.
  - unfold run.
    destruct (upload_data_to_s3_writes respond cfg data (State w2 []))
      as (body & st' & before & line & Ec & Eu & L).
    rewrite Eu. simpl snd. rewrite L. simpl.
    rewrite convert_returns in Ec. rewrite Hbucket.
    destruct (py_iter data) as [records|e0];
      [destruct (dumps_each records) as [ls|e0]|];
      injection Ec as _ <-; reflexivity.
  - assert (s3_uri b "raw-data/nba_player_data.jsonl"
            = ("s3://" ++ b ++ "/raw-data/") ++ "nba_player_data.jsonl")
      as ->.
    { unfold s3_uri. rewrite !append_assoc. reflexivity. }
    apply prefix_append.
Qed.

(** C10.  The one query [configure_athena] submits has the statement
    [CREATE DATABASE IF NOT EXISTS nba_analytics], whatever the
    configuration; the configured database name is passed as the
    execution context and the output location is the one derived from
    the bucket.  So two runs whose configurations differ in the
    database name only submit the same statement. *)
Theorem athena_statement_is_fixed (w : W) :
  athena_requests (log (snd (run (configure_athena respond cfg) w)))
    = [("CREATE DATABASE IF NOT EXISTS nba_analytics",
        glue_database_name cfg,
        "s3://" ++ py_str (bucket_name cfg) ++ "/athena-results/")]
  /\ forall (db : option string) (w2 : W),
       issued_statements
         (log (snd (run (configure_athena respond (with_database cfg db)) w2)))
       = issued_statements
           (log (snd (run (configure_athena respond cfg) w))).
Proof.
  assert (forall c w0,
            athena_requests (log (snd (run (configure_athena respond c) w0)))
            = [("CREATE DATABASE IF NOT EXISTS nba_analytics",
                glue_database_name c, athena_output_location c)]) as H.
  { intros c w0.
    unfold run, configure_athena, try_except, bind, call, print, emit.
    simpl. destruct (respond _ _ w0) as [[[]|e] w']; simpl; [reflexivity|].
    rewrite isinstance_Exception. reflexivity. }
  split; [apply H|].
  intros db w2. unfold issued_statements. rewrite !H. reflexivity.
Qed.

End PipelineClaims.

(** * The round trip of the transcoder *)

(** ** Characters: facts checked on all 256 of them *)

Ltac each_char c :=
  destruct c as [[] [] [] [] [] [] [] []].

Lemma starts_value_not_ws (c : ascii) :
  starts_value c = true -> is_ws c = false.
Proof. each_char c; intros H; try reflexivity; discriminate H. Qed.

Lemma skip_ws_value (s : string) :
  head_is starts_value s = true -> skip_ws s = s.
Proof.
  destruct s as [|c s]; simpl; [discriminate|].
  intros H. now rewrite (starts_value_not_ws c H).
Qed.

(** ** Integers *)

Lemma span_digits_end (rest : string) :
  ends_number rest = true -> span_digits rest = ("", rest).
Proof.
  destruct rest as [|c r]; simpl; [reflexivity|].
  destruct (is_digit c); simpl; [discriminate | reflexivity].
Qed.

Lemma span_digits_uint (u : Decimal.uint) (rest : string) :
  ends_number rest = true ->
  span_digits (NilEmpty.string_of_uint u ++ rest)
  = (NilEmpty.string_of_uint u, rest).
Proof.
  intros Hrest.
  induction u; simpl; try (rewrite IHu; reflexivity).
  now apply span_digits_end.
Qed.

Lemma to_uint_no_leading_zero (p : positive) (u : Decimal.uint) :
  Pos.to_uint p <> Decimal.D0 u.
Proof.
  intros H.
  assert (Decimal.unorm (Pos.to_uint p) = Pos.to_uint p) as Hnorm.
  { rewrite <- (DecimalPos.Unsigned.to_of (Pos.to_uint p)).
    rewrite DecimalPos.Unsigned.of_to. reflexivity. }
  destruct u as [|u|u|u|u|u|u|u|u|u|u];
    try (rewrite H, DecimalFacts.unorm_D0 in Hnorm;
         match type of Hnorm with
         | Decimal.unorm ?v = _ =>
             assert (Decimal.nb_digits (Decimal.unorm v) <= Decimal.nb_digits v)
               as Hle by (apply DecimalFacts.nb_digits_unorm; discriminate);
             rewrite Hnorm in Hle; simpl in Hle; lia
         end).
  exact (DecimalPos.Unsigned.to_uint_nonzero p H).
Qed.

Lemma ends_number_no_fraction (rest : string) :
  ends_number rest = true -> starts_fraction rest = false.
Proof.
  destruct rest as [|c r]; simpl; [reflexivity|].
  destruct (is_digit c); [discriminate|]. simpl.
  destruct ((c =? ".") || (c =? "e") || (c =? "E"))%char;
    [discriminate | reflexivity].
Qed.

Lemma int_of_digits_uint (sign : string) (u : Decimal.uint) (rest : string) :
  u <> Decimal.Nil -> (forall u', u <> Decimal.D0 u') ->
  ends_number rest = true ->
  int_of_digits sign (NilEmpty.string_of_uint u) rest
  = option_map (fun i => (Z.of_int i, rest))
      (NilZero.int_of_string (sign ++ NilEmpty.string_of_uint u)).
Proof.
  intros Hnil Hzero Hrest. unfold int_of_digits.
  rewrite (ends_number_no_fraction rest Hrest).
  destruct u; try (now elim Hnil); try reflexivity.
  now elim (Hzero u).
Qed.

Lemma scan_number_repr_int (z : Z) (rest : string) :
  ends_number rest = true ->
  scan_number (repr_int z ++ rest) = Some (z, rest).
Proof.
  intros Hrest.
  assert (forall p, Pos.to_uint p <> Decimal.Nil) as Hnil
    by apply DecimalPos.Unsigned.to_uint_nonnil.
  assert (forall p, NilZero.string_of_uint (Pos.to_uint p)
                    = NilEmpty.string_of_uint (Pos.to_uint p)) as Hpos.
  { intros p. specialize (Hnil p).
    destruct (Pos.to_uint p); [congruence | reflexivity ..]. }
  assert (forall p, strip_sign (NilEmpty.string_of_uint (Pos.to_uint p) ++ rest)
                    = ("", NilEmpty.string_of_uint (Pos.to_uint p) ++ rest))
    as Hsign.
  { intros p. specialize (Hnil p).
    destruct (Pos.to_uint p); [congruence | reflexivity ..]. }
  pose proof (DecimalZ.of_to z) as Hz.
  unfold scan_number, repr_int. destruct z as [|p|p].
  - simpl. rewrite (span_digits_end rest Hrest).
    unfold int_of_digits. rewrite (ends_number_no_fraction rest Hrest).
    reflexivity.
  - unfold Z.to_int, NilZero.string_of_int in *. rewrite Hpos in *.
    rewrite Hsign, (span_digits_uint _ rest Hrest).
    rewrite int_of_digits_uint;
      auto using to_uint_no_leading_zero.
    change ("" ++ NilEmpty.string_of_uint (Pos.to_uint p))
      with (NilEmpty.string_of_uint (Pos.to_uint p)).
    rewrite <- Hpos.
    change (NilZero.string_of_uint (Pos.to_uint p))
      with (NilZero.string_of_int (Decimal.Pos (Pos.to_uint p))).
    rewrite NilZero.isi.
    + cbv [option_map]. now rewrite Hz.
    + intros [= H]. now apply (Hnil p).
    + discriminate.
  - unfold Z.to_int, NilZero.string_of_int in *. rewrite Hpos in *.
    simpl. rewrite (span_digits_uint _ rest Hrest).
    rewrite int_of_digits_uint;
      auto using to_uint_no_leading_zero.
    change ("-" ++ NilEmpty.string_of_uint (Pos.to_uint p))
      with (String "-" (NilEmpty.string_of_uint (Pos.to_uint p))).
    rewrite <- Hpos.
    change (String "-" (NilZero.string_of_uint (Pos.to_uint p)))
      with (NilZero.string_of_int (Decimal.Neg (Pos.to_uint p))).
    rewrite NilZero.isi.
    + cbv [option_map]. now rewrite Hz.
    + discriminate.
    + intros [= H]. now apply (Hnil p).
Qed.

(** ** Strings *)

Lemma scanstring_escape_char (c : ascii) (rest : string) :
  scanstring (escape_char c ++ rest) =
  match scanstring rest with
  | None => None
  | Some (str, r) => Some (String c str, r)
  end.
Proof. each_char c; reflexivity. Qed.

Lemma scanstring_escape_chars (s rest : string) :
  scanstring (escape_chars s ++ String dquote rest) = Some (s, rest).
Proof.
  induction s as [|c s IH]; simpl; [reflexivity|].
  rewrite append_assoc, scanstring_escape_char, IH. reflexivity.
Qed.

Lemma encode_basestring_ascii_app (s rest : string) :
  encode_basestring_ascii s ++ rest
  = String dquote (escape_chars s ++ String dquote rest).
Proof.
  unfold encode_basestring_ascii, str1. simpl.
  rewrite append_assoc. reflexivity.
Qed.

(** ** The text of a value *)

Lemma json_value_list (items : list pyval) :
  json_value (PList items) = forallb json_value items.
Proof. reflexivity. Qed.

Lemma json_value_dict (pairs : list (string * pyval)) :
  json_value (PDict pairs) =
  distinct (map fst pairs) && forallb (fun kv => json_value (snd kv)) pairs.
Proof. reflexivity. Qed.

Lemma dumps_each_texts (items : list pyval) :
  Forall (fun x => json_dumps x = Ok (dumps_text x)) items ->
  dumps_each items = Ok (map dumps_text items).
Proof.
  induction 1 as [|x l Hx _ IH]; simpl; [reflexivity|].
  rewrite Hx, IH. reflexivity.
Qed.

Lemma dumps_members_texts (pairs : list (string * pyval)) :
  Forall (fun kv => json_dumps (snd kv) = Ok (dumps_text (snd kv))) pairs ->
  dumps_members pairs = Ok (map member_text pairs).
Proof.
  induction 1 as [|[k x] l Hx _ IH]; simpl in *; [reflexivity|].
  rewrite Hx, IH. reflexivity.
Qed.

(** json.dumps succeeds on a JSON value. *)
Lemma json_dumps_value (v : pyval) :
  json_value v = true -> json_dumps v = Ok (dumps_text v).
Proof.
  induction v as [ | b | z | s | items IH | pairs IH | t ]
    using pyval_induction; intros Hv;
    try reflexivity; try (destruct b; reflexivity); try discriminate.
  - rewrite json_value_list in Hv.
    assert (dumps_each items = Ok (map dumps_text items)) as H.
    { apply dumps_each_texts. rewrite forallb_forall in Hv.
      rewrite Forall_forall in IH |- *. auto. }
    unfold dumps_text. rewrite json_dumps_list, H. reflexivity.
  - rewrite json_value_dict in Hv. apply andb_prop in Hv as [_ Hv].
    assert (dumps_members pairs = Ok (map member_text pairs)) as H.
    { apply dumps_members_texts. rewrite forallb_forall in Hv.
      rewrite Forall_forall in IH |- *. auto. }
    unfold dumps_text. rewrite json_dumps_dict, H. reflexivity.
Qed.

Lemma dumps_text_list (items : list pyval) :
  forallb json_value items = true ->
  dumps_text (PList items) = "[" ++ join ", " (map dumps_text items) ++ "]".
Proof.
  intros Hv. unfold dumps_text at 1. rewrite json_dumps_list.
  rewrite dumps_each_texts; [reflexivity|].
  rewrite forallb_forall in Hv. apply Forall_forall.
  intros x Hx. apply json_dumps_value. auto.
Qed.

Lemma dumps_text_dict (pairs : list (string * pyval)) :
  forallb (fun kv => json_value (snd kv)) pairs = true ->
  dumps_text (PDict pairs) = "{" ++ join ", " (map member_text pairs) ++ "}".
Proof.
  intros Hv. unfold dumps_text at 1. rewrite json_dumps_dict.
  rewrite dumps_members_texts; [reflexivity|].
  rewrite forallb_forall in Hv. apply Forall_forall.
  intros x Hx. apply json_dumps_value. auto.
Qed.

Lemma join_cons2 (sep x y : string) (l : list string) :
  join sep (x :: y :: l) = x ++ sep ++ join sep (y :: l).
Proof. reflexivity. Qed.

#[local] Arguments join : simpl never.
#[local] Arguments member_text : simpl never.
#[local] Arguments dumps_text : simpl never.

Lemma join_head (sep x : string) (l : list string) (rest : string) :
  exists t, join sep (x :: l) ++ rest = x ++ t.
Proof.
  destruct l as [|y l].
  - exists rest. reflexivity.
  - rewrite join_cons2, append_assoc. eauto.
Qed.

(** ** What a text starts with *)

Lemma repr_int_head (z : Z) :
  exists c r, repr_int z = String c r
              /\ (is_digit c || (c =? "-")%char) = true.
Proof.
  assert (forall p, exists c r,
            NilZero.string_of_uint (Pos.to_uint p) = String c r
            /\ is_digit c = true) as Hpos.
  { intros p. pose proof (DecimalPos.Unsigned.to_uint_nonnil p) as Hnil.
    destruct (Pos.to_uint p); [congruence | simpl; eauto ..]. }
  unfold repr_int. destruct z as [|p|p]; simpl.
  - eauto.
  - destruct (Hpos p) as (c & r & -> & Hc). exists c, r. now rewrite Hc.
  - eauto.
Qed.

Lemma dumps_text_head (v : pyval) :
  json_value v = true -> forall rest,
  head_is starts_value (dumps_text v ++ rest) = true.
Proof.
  intros Hv rest. destruct v as [ | b | z | s | items | pairs | t ].
  - reflexivity.
  - destruct b; reflexivity.
  - change (dumps_text (PInt z)) with (repr_int z).
    destruct (repr_int_head z) as (c & r & -> & Hc). simpl.
    unfold starts_value.
    destruct (is_digit c); [reflexivity|]. simpl in Hc. rewrite Hc.
    reflexivity.
  - reflexivity.
  - rewrite dumps_text_list by exact Hv. reflexivity.
  - rewrite json_value_dict in Hv. apply andb_prop in Hv as [_ Hv].
    rewrite dumps_text_dict by exact Hv. reflexivity.
  - discriminate.
Qed.

(** ** Reading a text back *)

Lemma scan_once_number (n : nat) (c : ascii) (r : string) :
  (is_digit c || (c =? "-")%char) = true ->
  scan_once (S n) (String c r) =
  match scan_number (String c r) with
  | Some (z, rest) => Some (PInt z, rest)
  | None => None
  end.
Proof. each_char c; intros H; try discriminate H; reflexivity. Qed.

Lemma scan_once_string (n : nat) (r : string) :
  scan_once (S n) (String dquote r) =
  match scanstring r with
  | None => None
  | Some (str, rest) => Some (PStr str, rest)
  end.
Proof. reflexivity. Qed.

Lemma scan_once_list (n : nat) (r : string) :
  scan_once (S n) (String "[" r) =
  match skip_ws r with
  | EmptyString => None
  | String c1 r1 =>
      if (c1 =? "]")%char then Some (PList [], r1)
      else
        match scan_items n (String c1 r1) with
        | None => None
        | Some (items, rest) => Some (PList items, rest)
        end
  end.
Proof. reflexivity. Qed.

Lemma scan_once_dict (n : nat) (r : string) :
  scan_once (S n) (String "{" r) =
  match skip_ws r with
  | EmptyString => None
  | String c1 r1 =>
      if (c1 =? "}")%char then Some (PDict [], r1)
      else
        match scan_members n (String c1 r1) with
        | None => None
        | Some (pairs, rest) => Some (PDict (dict_of_pairs pairs), rest)
        end
  end.
Proof. reflexivity. Qed.

Lemma scan_items_step (n : nat) (s : string) :
  scan_items (S n) s =
  match scan_once n s with
  | None => None
  | Some (v, r) =>
      match skip_ws r with
      | EmptyString => None
      | String c r1 =>
          if (c =? "]")%char then Some ([v], r1)
          else if (c =? ",")%char then
            match scan_items n (skip_ws r1) with
            | None => None
            | Some (items, rest) => Some (v :: items, rest)
            end
          else None
      end
  end.
Proof. reflexivity. Qed.

Lemma scan_members_step (n : nat) (r : string) :
  scan_members (S n) (String dquote r) =
  match scanstring r with
  | None => None
  | Some (k, r1) =>
      match skip_ws r1 with
      | EmptyString => None
      | String c r2 =>
          if negb (c =? ":")%char then None
          else
            match scan_once n (skip_ws r2) with
            | None => None
            | Some (v, r3) =>
                match skip_ws r3 with
                | EmptyString => None
                | String c' r4 =>
                    if (c' =? "}")%char then Some ([(k, v)], r4)
                    else if (c' =? ",")%char then
                      match scan_members n (skip_ws r4) with
                      | None => None
                      | Some (pairs, rest) => Some ((k, v) :: pairs, rest)
                      end
                    else None
                end
            end
      end
  end.
Proof. reflexivity. Qed.

(** The property proved of each value: its text, followed by anything
    that cannot continue a number, reads back as the value and leaves
    what followed. *)
Definition reads_back (v : pyval) : Prop :=
  json_value v = true ->
  forall n rest, size v <= n -> ends_number rest = true ->
  scan_once n (dumps_text v ++ rest) = Some (v, rest).

Lemma scan_items_join (items : list pyval) :
  Forall reads_back items -> forallb json_value items = true ->
  items <> [] ->
  forall n rest,
    list_sum (map (fun x => S (size x)) items) <= n ->
    scan_items n (join ", " (map dumps_text items) ++ String "]" rest)
    = Some (items, rest).
Proof.
  induction 1 as [|x l Hx Hl IH]; [congruence|].
  intros Hv _ n rest Hn. simpl in Hv, Hn.
  apply andb_prop in Hv as [Hvx Hvl].
  destruct n as [|n]; [lia|]. rewrite scan_items_step.
  destruct l as [|y l].
  - change (join ", " (map dumps_text [x])) with (dumps_text x).
    rewrite (Hx Hvx n (String "]" rest)) by (simpl; lia || reflexivity).
    reflexivity.
  - simpl map. rewrite join_cons2, !append_assoc.
    rewrite (Hx Hvx n) by (simpl in *; lia || reflexivity).
    simpl skip_ws. simpl.
    rewrite skip_ws_value.
    + rewrite IH; [reflexivity | exact Hvl | discriminate | simpl in *; lia].
    + simpl in Hvl. apply andb_prop in Hvl as [Hvy _].
      destruct (join_head ", " (dumps_text y) (map dumps_text l)
                  (String "]" rest)) as (t & ->).
      apply dumps_text_head, Hvy.
Qed.

Lemma scan_members_member (n : nat) (k : string) (x : pyval) (tail : string) :
  reads_back x -> json_value x = true -> size x <= n ->
  ends_number tail = true ->
  scan_members (S n) (member_text (k, x) ++ tail) =
  match skip_ws tail with
  | EmptyString => None
  | String c' r4 =>
      if (c' =? "}")%char then Some ([(k, x)], r4)
      else if (c' =? ",")%char then
        match scan_members n (skip_ws r4) with
        | None => None
        | Some (pairs, rest) => Some ((k, x) :: pairs, rest)
        end
      else None
  end.
Proof.
  intros Hx Hvx Hn Htail. unfold member_text. simpl fst. simpl snd.
  rewrite append_assoc, encode_basestring_ascii_app.
  rewrite scan_members_step, scanstring_escape_chars.
  rewrite append_assoc. simpl.
  rewrite skip_ws_value by (apply dumps_text_head, Hvx).
  rewrite (Hx Hvx n tail Hn Htail). reflexivity.
Qed.

Lemma member_text_head (kv : string * pyval) (rest : string) :
  head_is starts_value (member_text kv ++ rest) = true.
Proof. reflexivity. Qed.

Lemma scan_members_join (pairs : list (string * pyval)) :
  Forall (fun kv => reads_back (snd kv)) pairs ->
  forallb (fun kv => json_value (snd kv)) pairs = true ->
  pairs <> [] ->
  forall n rest,
    list_sum (map (fun kv => S (size (snd kv))) pairs) <= n ->
    scan_members n (join ", " (map member_text pairs) ++ String "}" rest)
    = Some (pairs, rest).
Proof.
  induction 1 as [|[k x] l Hx Hl IH]; [congruence|].
  intros Hv _ n rest Hn. simpl in Hv, Hn, Hx.
  apply andb_prop in Hv as [Hvx Hvl].
  destruct n as [|n]; [lia|].
  destruct l as [|kv l].
  - change (join ", " (map member_text [(k, x)])) with (member_text (k, x)).
    rewrite scan_members_member by (auto; simpl in *; lia).
    reflexivity.
  - simpl map. rewrite join_cons2, !append_assoc.
    rewrite scan_members_member by (auto; simpl in *; lia).
    simpl.
    rewrite skip_ws_value.
    + rewrite IH; [reflexivity | exact Hvl | discriminate | simpl in *; lia].
    + destruct (join_head ", " (member_text kv) (map member_text l)
                  (String "}" rest)) as (t & ->).
      apply member_text_head.
Qed.

(** A dict built from pairs with distinct keys is those pairs. *)
Lemma dict_set_fresh (d : list (string * pyval)) (k : string) (v : pyval) :
  existsb (String.eqb k) (map fst d) = false ->
  dict_set d k v = (d ++ [(k, v)])%list.
Proof.
  induction d as [|[k' v'] d IH]; simpl; [reflexivity|].
  intros H. apply orb_false_elim in H as [Hk Hd].
  rewrite String.eqb_sym, Hk, IH by exact Hd. reflexivity.
Qed.

Lemma dict_of_pairs_distinct (pairs : list (string * pyval)) :
  distinct (map fst pairs) = true -> dict_of_pairs pairs = pairs.
Proof.
  unfold dict_of_pairs.
  assert (forall l acc,
            distinct (map fst (acc ++ l)) = true ->
            fold_left (fun d kv => dict_set d (fst kv) (snd kv)) l acc
            = (acc ++ l)%list) as H.
  { induction l as [|[k v] l IH]; intros acc Hd; simpl.
    - now rewrite List.app_nil_r.
    - assert (existsb (String.eqb k) (map fst acc) = false) as Hfresh.
      { clear IH. induction acc as [|[k' v'] acc IHacc]; [reflexivity|].
        simpl in Hd |- *. apply andb_prop in Hd as [Hk' Hd].
        rewrite (IHacc Hd), orb_false_r.
        apply negb_true_iff in Hk'.
        rewrite map_app, existsb_app in Hk'.
        apply orb_false_elim in Hk' as [_ Hk']. simpl in Hk'.
        apply orb_false_elim in Hk' as [Hk' _].
        now rewrite String.eqb_sym. }
      rewrite dict_set_fresh by exact Hfresh.
      rewrite IH; rewrite <- app_assoc; [reflexivity | exact Hd]. }
  intros Hd. apply (H pairs []). exact Hd.
Qed.

Lemma starts_value_not_close (c : ascii) :
  starts_value c = true -> (c =? "]")%char = false /\ (c =? "}")%char = false.
Proof. each_char c; intros H; try discriminate H; split; reflexivity. Qed.

(** Every JSON value reads back from its text. *)
Lemma scan_once_dumps_text (v : pyval) : reads_back v.
Proof.
  induction v as [ | b | z | s | items IH | pairs IH | t ]
    using pyval_induction; intros Hv n rest Hn Hrest;
    (destruct n as [|n]; [simpl in Hn; lia|]).
  - reflexivity.
  - destruct b; reflexivity.
  - change (dumps_text (PInt z)) with (repr_int z).
    destruct (repr_int_head z) as (c & r & Hz & Hc).
    pose proof (scan_number_repr_int z rest Hrest) as Hscan.
    rewrite Hz in *. simpl append in *.
    rewrite scan_once_number, Hscan by exact Hc. reflexivity.
  - change (dumps_text (PStr s)) with (encode_basestring_ascii s).
    rewrite encode_basestring_ascii_app, scan_once_string.
    rewrite scanstring_escape_chars. reflexivity.
  - rewrite json_value_list in Hv. rewrite dumps_text_list by exact Hv.
    rewrite !append_assoc. simpl append at 1. rewrite scan_once_list.
    destruct items as [|x l]; [reflexivity|].
    pose proof (scan_items_join (x :: l) IH Hv ltac:(discriminate) n rest)
      as Hitems.
    simpl in Hn. specialize (Hitems ltac:(simpl; lia)).
    change ("]" ++ rest) with (String "]" rest).
    destruct (join_head ", " (dumps_text x) (map dumps_text l)
                (String "]" rest)) as (t & Ht).
    simpl map in Hitems |- *.
    assert (head_is starts_value
              (join ", " (dumps_text x :: map dumps_text l) ++ String "]" rest)
            = true) as Hhead.
    { rewrite Ht. apply dumps_text_head.
      simpl in Hv. now apply andb_prop in Hv as [Hvx _]. }
    rewrite (skip_ws_value _ Hhead).
    destruct (join ", " (dumps_text x :: map dumps_text l) ++ String "]" rest)
      as [|c1 r1]; [discriminate Hhead|].
    simpl in Hhead. apply starts_value_not_close in Hhead as [-> _].
    rewrite Hitems. reflexivity.
  - rewrite json_value_dict in Hv. apply andb_prop in Hv as [Hkeys Hv].
    rewrite dumps_text_dict by exact Hv.
    rewrite !append_assoc. simpl append at 1. rewrite scan_once_dict.
    destruct pairs as [|kv l]; [reflexivity|].
    pose proof (scan_members_join (kv :: l) IH Hv ltac:(discriminate) n rest)
      as Hmembers.
    simpl in Hn. specialize (Hmembers ltac:(simpl; lia)).
    change ("}" ++ rest) with (String "}" rest).
    destruct (join_head ", " (member_text kv) (map member_text l)
                (String "}" rest)) as (t & Ht).
    simpl map in Hmembers |- *.
    assert (head_is starts_value
              (join ", " (member_text kv :: map member_text l)
               ++ String "}" rest)
            = true) as Hhead.
    { rewrite Ht. apply member_text_head. }
    rewrite (skip_ws_value _ Hhead).
    destruct (join ", " (member_text kv :: map member_text l)
              ++ String "}" rest)
      as [|c1 r1]; [discriminate Hhead|].
    simpl in Hhead. apply starts_value_not_close in Hhead as [_ ->].
    rewrite Hmembers, (dict_of_pairs_distinct _ Hkeys). reflexivity.
  - discriminate.
Qed.

(** ** json.loads after json.dumps *)

Lemma repr_int_length (z : Z) : 1 <= String.length (repr_int z).
Proof.
  destruct (repr_int_head z) as (c & r & -> & _). simpl. lia.
Qed.

Lemma join_length_items (items : list pyval) :
  Forall (fun x => size x <= String.length (dumps_text x)) items ->
  list_sum (map (fun x => S (size x)) items)
  <= String.length (join ", " (map dumps_text items)) + 1.
Proof.
  induction 1 as [|x l Hx _ IH]; [simpl; lia|].
  destruct l as [|y l].
  - change (join ", " (map dumps_text [x])) with (dumps_text x).
    simpl. lia.
  - simpl map in *. rewrite join_cons2, !length_append.
    simpl list_sum in *. simpl String.length. lia.
Qed.

Lemma member_text_length (kv : string * pyval) :
  String.length (dumps_text (snd kv)) <= String.length (member_text kv).
Proof.
  unfold member_text. rewrite !length_append. lia.
Qed.

Lemma join_length_members (pairs : list (string * pyval)) :
  Forall (fun kv => size (snd kv) <= String.length (dumps_text (snd kv)))
    pairs ->
  list_sum (map (fun kv => S (size (snd kv))) pairs)
  <= String.length (join ", " (map member_text pairs)) + 1.
Proof.
  induction 1 as [|x l Hx _ IH]; [simpl; lia|].
  pose proof (member_text_length x) as Hm. cbv beta in Hx.
  destruct l as [|y l].
  - change (join ", " (map member_text [x])) with (member_text x).
    simpl list_sum. lia.
  - simpl map in IH |- *. rewrite join_cons2, !length_append.
    simpl list_sum in IH |- *. change (String.length ", ") with 2. lia.
Qed.

(** The text of a value is at least as long as the value is large. *)
Lemma size_le_length (v : pyval) :
  json_value v = true -> size v <= String.length (dumps_text v).
Proof.
  induction v as [ | b | z | s | items IH | pairs IH | t ]
    using pyval_induction; intros Hv.
  - simpl. lia.
  - destruct b; simpl; lia.
  - apply repr_int_length.
  - simpl. lia.
  - rewrite json_value_list in Hv. rewrite dumps_text_list by exact Hv.
    rewrite !length_append. simpl.
    assert (Forall (fun x => size x <= String.length (dumps_text x)) items)
      as H.
    { rewrite forallb_forall in Hv. rewrite Forall_forall in IH |- *. auto. }
    pose proof (join_length_items items H). lia.
  - rewrite json_value_dict in Hv. apply andb_prop in Hv as [_ Hv].
    rewrite dumps_text_dict by exact Hv.
    rewrite !length_append. simpl.
    assert (Forall (fun kv => size (snd kv)
                              <= String.length (dumps_text (snd kv))) pairs)
      as H.
    { rewrite forallb_forall in Hv. rewrite Forall_forall in IH |- *. auto. }
    pose proof (join_length_members pairs H). lia.
  - discriminate.
Qed.

(** A line written by json.dumps parses back to the value. *)
Lemma json_loads_dumps_text (v : pyval) :
  json_value v = true -> json_loads (dumps_text v) = Some v.
Proof.
  intros Hv. unfold json_loads.
  pose proof (dumps_text_head v Hv "") as Hhead.
  rewrite append_nil_r in Hhead. rewrite (skip_ws_value _ Hhead).
  pose proof (scan_once_dumps_text v Hv (S (String.length (dumps_text v))) "")
    as Hscan.
  rewrite append_nil_r in Hscan. rewrite Hscan.
  - reflexivity.
  - pose proof (size_le_length v Hv). lia.
  - reflexivity.
Qed.

(** ** Lines *)

Lemma no_newline_app (s t : string) :
  no_newline (s ++ t) = no_newline s && no_newline t.
Proof.
  induction s as [|c s IH]; simpl; [reflexivity|].
  now rewrite IH, andb_assoc.
Qed.

Lemma no_newline_escape_char (c : ascii) : no_newline (escape_char c) = true.
Proof. each_char c; reflexivity. Qed.

Lemma no_newline_escape_chars (s : string) :
  no_newline (escape_chars s) = true.
Proof.
  induction s as [|c s IH]; simpl; [reflexivity|].
  now rewrite no_newline_app, no_newline_escape_char, IH.
Qed.

Lemma no_newline_encode (s : string) :
  no_newline (encode_basestring_ascii s) = true.
Proof.
  unfold encode_basestring_ascii. simpl.
  now rewrite no_newline_app, no_newline_escape_chars.
Qed.

Lemma no_newline_uint (u : Decimal.uint) :
  no_newline (NilEmpty.string_of_uint u) = true.
Proof. induction u; simpl; auto. Qed.

Lemma no_newline_repr_int (z : Z) : no_newline (repr_int z) = true.
Proof.
  assert (forall u, no_newline (NilZero.string_of_uint u) = true) as H.
  { intros u. destruct u; try reflexivity; apply (no_newline_uint (_ u)). }
  unfold repr_int. destruct (Z.to_int z); simpl; apply H.
Qed.

Lemma no_newline_join (sep : string) (parts : list string) :
  no_newline sep = true -> Forall (fun s => no_newline s = true) parts ->
  no_newline (join sep parts) = true.
Proof.
  intros Hsep. induction 1 as [|x l Hx _ IH]; [reflexivity|].
  destruct l as [|y l]; [exact Hx|].
  rewrite join_cons2, !no_newline_app, Hx, Hsep, IH. reflexivity.
Qed.

(** json.dumps writes no newline: it escapes those of the strings. *)
Lemma no_newline_dumps_text (v : pyval) :
  json_value v = true -> no_newline (dumps_text v) = true.
Proof.
  induction v as [ | b | z | s | items IH | pairs IH | t ]
    using pyval_induction; intros Hv.
  - reflexivity.
  - destruct b; reflexivity.
  - apply no_newline_repr_int.
  - apply no_newline_encode.
  - rewrite json_value_list in Hv. rewrite dumps_text_list by exact Hv.
    rewrite !no_newline_app, no_newline_join; [reflexivity..|].
    rewrite forallb_forall in Hv. rewrite Forall_forall in IH.
    apply Forall_forall. intros s Hs. apply in_map_iff in Hs as (x & <- & Hx).
    auto.
  - rewrite json_value_dict in Hv. apply andb_prop in Hv as [_ Hv].
    rewrite dumps_text_dict by exact Hv.
    rewrite !no_newline_app, no_newline_join; [reflexivity..|].
    rewrite forallb_forall in Hv. rewrite Forall_forall in IH.
    apply Forall_forall. intros s Hs. apply in_map_iff in Hs as (x & <- & Hx).
    unfold member_text.
    rewrite !no_newline_app, no_newline_encode, IH; auto.
  - discriminate.
Qed.

Lemma splitlines_from_line (cur s rest : string) :
  no_newline s = true ->
  splitlines_from cur (s ++ rest) = splitlines_from (cur ++ s) rest.
Proof.
  revert cur. induction s as [|c s IH]; intros cur Hs; simpl.
  - now rewrite append_nil_r.
  - simpl in Hs. apply andb_prop in Hs as [Hc Hs].
    apply negb_true_iff in Hc. rewrite Hc, IH by exact Hs.
    rewrite append_assoc. reflexivity.
Qed.

(** Joining lines with newlines and splitting again gives the lines
    back, when none is empty and none holds a newline. *)
Lemma splitlines_join (lines : list string) :
  Forall (fun s => no_newline s = true /\ s <> "") lines ->
  splitlines (join (str1 char_nl) lines) = lines.
Proof.
  unfold splitlines.
  induction 1 as [|x l [Hx Hne] _ IH]; [reflexivity|].
  destruct l as [|y l].
  - change (join (str1 char_nl) [x]) with x.
    rewrite <- (append_nil_r x) at 1.
    rewrite splitlines_from_line by exact Hx. simpl.
    destruct x; [congruence | reflexivity].
  - rewrite join_cons2, splitlines_from_line by exact Hx.
    simpl. rewrite IH. reflexivity.
Qed.

(** ** The transcoder *)

Lemma dumps_text_not_empty (v : pyval) :
  json_value v = true -> dumps_text v <> "".
Proof.
  intros Hv H. pose proof (dumps_text_head v Hv "") as Hhead.
  rewrite H in Hhead. discriminate Hhead.
Qed.

Section Transcoder.

Context {W : Type}.

(** C5.  For records that are JSON values (what json.loads can give:
    no object without encoder, no key twice in a dict),
    [convert_to_line_delimited_json] returns a text with as many lines
    as there are records, and line [i] is what [json.dumps] gives for
    record [i] alone and parses back, with [json.loads], to record
    [i]. *)
Theorem lines_parse_back_to_records
    (records : list pyval) (st : state W) :
  forallb json_value records = true ->
  exists text,
    convert_to_line_delimited_json (PList records) st =
      (Ok text,
       State (world st)
         (log st ++ [Print "Converting data to line-delimited JSON format..."]))
    /\ List.length (splitlines text) = List.length records
    /\ forall i record,
         nth_error records i = Some record ->
         exists line,
           nth_error (splitlines text) i = Some line
           /\ json_dumps record = Ok line
           /\ json_loads line = Some record.
Proof.
  intros Hv. rewrite forallb_forall in Hv.
  assert (dumps_each records = Ok (map dumps_text records)) as Hdumps.
  { apply dumps_each_texts, Forall_forall.
    intros x Hx. apply json_dumps_value. auto. }
  assert (splitlines (join (str1 char_nl) (map dumps_text records))
          = map dumps_text records) as Hlines.
  { apply splitlines_join, Forall_forall.
    intros s Hs. apply in_map_iff in Hs as (x & <- & Hx). split.
    - apply no_newline_dumps_text. auto.
    - apply dumps_text_not_empty. auto. }
  exists (join (str1 char_nl) (map dumps_text records)).
  split; [|split].
  - rewrite convert_returns. simpl py_iter. cbv iota. rewrite Hdumps.
    reflexivity.
  - rewrite Hlines. apply length_map.
  - intros i record Hi. exists (dumps_text record).
    assert (json_value record = true) as Hrecord
      by (apply Hv; eapply nth_error_In; exact Hi).
    rewrite Hlines, nth_error_map, Hi. split; [reflexivity|]. split.
    + apply json_dumps_value, Hrecord.
    + apply json_loads_dumps_text, Hrecord.
Qed.

End Transcoder.

(** * Further properties of the script *)

Ltac run_script :=
  unfold try_except, bind, call, print, time_sleep, emit, lift, ret; simpl.

Ltac pick_handler e :=
  repeat match goal with
  | |- context [isinstance e Exception] => rewrite (isinstance_Exception e)
  | |- context [isinstance e ?c] => destruct (isinstance e c)
  end.

Section Fetch.

Context {W : Type}.
Variable respond : forall R : Type, api R -> W -> result R * W.
Variable cfg : config.

Lemma raise_for_status_ok (resp : response) :
  (status_code resp < 400 \/ 600 <= status_code resp)%Z ->
  raise_for_status resp = Ok tt.
Proof.
  intros H. unfold raise_for_status.
  destruct (400 <=? status_code resp)%Z eqn:E1;
    destruct (status_code resp <? 500)%Z eqn:E2;
    destruct (500 <=? status_code resp)%Z eqn:E3;
    destruct (status_code resp <? 600)%Z eqn:E4; simpl; try reflexivity;
    lia.
Qed.

(** X1.  When the API answers with a status outside 400..599 and a body
    that decodes, [fetch_nba_data] returns the decoded body as it is,
    having sent its request and printed the success line. *)
Theorem fetch_returns_decoded_body
    (st : state W) (resp : response) (w' : W) (v : pyval) :
  respond _ (players_request cfg) (world st) = (Ok resp, w') ->
  (status_code resp < 400 \/ 600 <= status_code resp)%Z ->
  json resp = Ok v ->
  fetch_nba_data respond cfg st =
    (Ok v,
     State w'
       (log st ++ [Call (players_request cfg);
                   Print "Fetched NBA data successfully."])).
Proof.
  intros Hget Hstatus Hjson.
  unfold fetch_nba_data, try_except, bind, call, lift, print, emit.
  fold (players_request cfg). rewrite Hget.
  rewrite (raise_for_status_ok resp Hstatus). simpl. rewrite Hjson.
  rewrite <- app_assoc. reflexivity.
Qed.

(** X2.  Whatever exception is raised in the body of [fetch_nba_data],
    by [requests.get], by [raise_for_status] or by [json()], and
    whatever its class, the function returns the empty list after its
    one request: it never raises. *)
Theorem fetch_failure_gives_empty_list (st : state W) (e : exn) (w' : W) :
  (respond _ (players_request cfg) (world st) = (Raise e, w')
   \/ exists resp,
        respond _ (players_request cfg) (world st) = (Ok resp, w')
        /\ (raise_for_status resp = Raise e
            \/ (raise_for_status resp = Ok tt /\ json resp = Raise e))) ->
  exists new,
    fetch_nba_data respond cfg st = (Ok (PList []), State w' (log st ++ new))
    /\ calls_of new = [StepFetch].
Proof.
  intros Hfail.
  unfold fetch_nba_data, try_except, bind, call, lift, print, emit, ret.
  fold (players_request cfg).
  destruct Hfail as [Hget | (resp & Hget & [Hstatus | [Hstatus Hjson]])];
    rewrite Hget; simpl; rewrite ?Hstatus; simpl; rewrite ?Hjson; simpl;
    pick_handler e; simpl; eexists;
    (split; [rewrite <- ?app_assoc; reflexivity | reflexivity]).
Qed.

(** X3.  The success line is printed before the body is decoded: when
    [json()] raises, the log shows "Fetched NBA data successfully."
    followed by an error line, and the result is the empty list. *)
Theorem undecodable_body_is_logged_as_fetched
    (st : state W) (resp : response) (w' : W) (e : exn) :
  respond _ (players_request cfg) (world st) = (Ok resp, w') ->
  raise_for_status resp = Ok tt ->
  json resp = Raise e ->
  exists line,
    fetch_nba_data respond cfg st =
      (Ok (PList []),
       State w'
         (log st ++ [Call (players_request cfg);
                     Print "Fetched NBA data successfully.";
                     Print line])).
Proof.
  intros Hget Hstatus Hjson.
  unfold fetch_nba_data, try_except, bind, call, lift, print, emit, ret.
  fold (players_request cfg). rewrite Hget, Hstatus. simpl. rewrite Hjson.
  pick_handler e; simpl; eexists; rewrite <- !app_assoc; reflexivity.
Qed.

(** X4.  In every run, whatever the answer, [fetch_nba_data] sends
    exactly one request, to the configured endpoint, with the key in the
    [Ocp-Apim-Subscription-Key] header: it does not try again. *)
Theorem fetch_sends_one_request (w : W) :
  requests_of (log (snd (run (fetch_nba_data respond cfg) w)))
  = [(nba_endpoint cfg, [("Ocp-Apim-Subscription-Key", api_key cfg)])].
Proof.
  unfold run, fetch_nba_data, try_except, bind, call, lift, print, emit, ret.
  simpl.
  destruct (respond _ _ w) as [[resp|e] w']; simpl.
  - destruct (raise_for_status resp) as [[]|e]; simpl.
    + destruct (json resp) as [v|e]; simpl; [reflexivity|].
      pick_handler e; reflexivity.
    + pick_handler e; reflexivity.
  - pick_handler e; reflexivity.
Qed.

(** X5.  The clauses are tried in order: an exception that is a
    [ConnectionError] (and no [HTTPError]) is reported as a network
    connection error, also when it is a [Timeout] as well, as a
    [ConnectTimeout] is. *)
Theorem connection_clause_comes_before_timeout
    (st : state W) (e : exn) (w' : W) :
  respond _ (players_request cfg) (world st) = (Raise e, w') ->
  isinstance e HTTPError = false ->
  isinstance e ConnectionError = true ->
  fetch_nba_data respond cfg st =
    (Ok (PList []),
     State w'
       (log st ++
        [Call (players_request cfg);
         Print "Network connection error. Please check your internet connection."])).
Proof.
  intros Hget Hhttp Hconn.
  unfold fetch_nba_data, try_except, bind at 1, call.
  fold (players_request cfg). rewrite Hget. simpl.
  rewrite Hhttp, Hconn. unfold bind, print, emit, ret. simpl.
  rewrite <- app_assoc. reflexivity.
Qed.

End Fetch.

Section Orchestrator.

Context {W : Type}.
Variable respond : forall R : Type, api R -> W -> result R * W.
Variable cfg : config.

(** X6.  [if nba_data:] tests the truth value of what was fetched, not
    that it is a list: after the three first calls, a run of [main]
    makes the upload, table and Athena calls when that value is truthy
    (a non-empty list, but also a dict, a string or a number) and none
    of them when it is falsy (the empty list, but also [{}], [""], [0],
    [None]). *)
Theorem main_goes_on_iff_data_is_truthy
    (st st1 st2 : state W) (nba_data : pyval) :
  before_fetch respond cfg st = (Ok tt, st1) ->
  fetch_nba_data respond cfg st1 = (Ok nba_data, st2) ->
  exists st' new,
    main respond cfg st = (Ok tt, st')
    /\ log st' = (log st ++ new)%list
    /\ calls_of new =
       ([StepBucket; StepDatabase; StepFetch]
        ++ if py_bool nba_data
           then [StepUpload; StepTable; StepAthena] else [])%list.
Proof.
  intros E1 E2.
  destruct (before_fetch_completes respond cfg st)
    as (st1' & n1 & E1' & L1 & C1).
  rewrite E1 in E1'. injection E1' as <-.
  destruct (fetch_nba_data_returns respond cfg st1)
    as (d & st2' & n2 & E2' & L2 & C2).
  rewrite E2 in E2'. injection E2' as <- <-.
  destruct (after_fetch_calls respond cfg nba_data st2)
    as (st3 & n3 & E3 & L3 & C3).
  exists st3, (n1 ++ n2 ++ n3)%list.
  rewrite main_split. unfold bind at 1. rewrite E1.
  unfold bind at 1. rewrite E2.
  split; [exact E3|]. split.
  - rewrite L3, L2, L1, <- !app_assoc. reflexivity.
  - rewrite !calls_of_app, C1, C2, C3. reflexivity.
Qed.


(** Steps that return without pausing. *)
Definition returns_without_sleep {A : Type} (m : M W A) : Prop :=
  forall st, exists a st' new,
    m st = (Ok a, st') /\ log st' = (log st ++ new)%list
    /\ sleeps_of new = [].

Lemma sleeps_of_app (l1 l2 : list event) :
  sleeps_of (l1 ++ l2) = (sleeps_of l1 ++ sleeps_of l2)%list.
Proof.
  induction l1 as [|ev l1 IH]; simpl; [reflexivity|].
  destruct ev; simpl; rewrite IH; reflexivity.
Qed.

Lemma bind_without_sleep {A B : Type} (m : M W A) (k : A -> M W B) :
  returns_without_sleep m -> (forall a, returns_without_sleep (k a)) ->
  returns_without_sleep (bind m k).
Proof.
  intros Hm Hk st.
  destruct (Hm st) as (a & st1 & n1 & E1 & L1 & S1).
  destruct (Hk a st1) as (b & st2 & n2 & E2 & L2 & S2).
  exists b, st2, (n1 ++ n2)%list. unfold bind. rewrite E1, E2.
  split; [reflexivity|]. split.
  - rewrite L2, L1, app_assoc. reflexivity.
  - rewrite sleeps_of_app, S1, S2. reflexivity.
Qed.

Ltac no_sleep :=
  simpl; do 3 eexists; split; [reflexivity |];
  simpl; rewrite <- ?app_assoc; simpl; split; reflexivity.

Lemma print_without_sleep (line : string) :
  returns_without_sleep (print (W := W) line).
Proof. intros st. run_script. no_sleep. Qed.

Lemma ret_without_sleep {A : Type} (a : A) :
  returns_without_sleep (ret (W := W) a).
Proof.
  intros st. exists a, st, []. rewrite List.app_nil_r. repeat split.
Qed.

Lemma create_s3_bucket_without_sleep :
  returns_without_sleep (create_s3_bucket respond cfg).
Proof.
  intros st. unfold create_s3_bucket. run_script.
  destruct (py_eq_str (region cfg) "us-east-1"); run_script;
    destruct (respond _ _ (world st)) as [[[]|e] w'];
    pick_handler e; no_sleep.
Qed.

Lemma create_glue_database_without_sleep :
  returns_without_sleep (create_glue_database respond cfg).
Proof.
  intros st. unfold create_glue_database. run_script.
  destruct (respond _ _ (world st)) as [[[]|e] w']; pick_handler e; no_sleep.
Qed.

Lemma create_glue_table_without_sleep :
  returns_without_sleep (create_glue_table respond cfg).
Proof.
  intros st. unfold create_glue_table. run_script.
  destruct (respond _ _ (world st)) as [[[]|e] w']; pick_handler e; no_sleep.
Qed.

Lemma configure_athena_without_sleep :
  returns_without_sleep (configure_athena respond cfg).
Proof.
  intros st. unfold configure_athena. run_script.
  destruct (respond _ _ (world st)) as [[[]|e] w']; pick_handler e; no_sleep.
Qed.

Lemma fetch_nba_data_without_sleep :
  returns_without_sleep (fetch_nba_data respond cfg).
Proof.
  intros st. unfold fetch_nba_data. run_script.
  destruct (respond _ _ (world st)) as [[resp|e] w']; simpl.
  - destruct (raise_for_status resp) as [[]|e]; simpl.
    + destruct (json resp) as [v|e]; simpl; [no_sleep|].
      pick_handler e; no_sleep.
    + pick_handler e; no_sleep.
  - pick_handler e; no_sleep.
Qed.

Lemma upload_data_to_s3_without_sleep (data : pyval) :
  returns_without_sleep (upload_data_to_s3 respond cfg data).
Proof.
  intros st.
  destruct (upload_data_to_s3_writes respond cfg data st)
    as (body & st' & before & line & Ec & Eu & L).
  exists tt, st'. eexists. split; [exact Eu|]. split; [exact L|].
  rewrite sleeps_of_app. simpl.
  rewrite convert_returns in Ec.
  destruct (py_iter data) as [records|e0];
    [destruct (dumps_each records) as [ls|e0]|];
    injection Ec as _ Ec; apply app_inv_head in Ec; subst before; reflexivity.
Qed.

Lemma bucket_step_log (st : state W) :
  exists w1 line,
    create_s3_bucket respond cfg st =
      (Ok tt, State w1 (log st ++ [Call (bucket_request cfg); Print line])).
Proof.
  rewrite create_s3_bucket_on_answer.
  destruct (respond _ (bucket_request cfg) (world st)) as [r w1]. eauto.
Qed.

Lemma database_step_log (st : state W) :
  exists w1 line,
    create_glue_database respond cfg st =
      (Ok tt, State w1 (log st ++ [Call (database_request cfg); Print line])).
Proof.
  unfold create_glue_database. run_script. fold (database_request cfg).
  destruct (respond _ (database_request cfg) (world st)) as [[[]|e] w1];
    pick_handler e; simpl; rewrite <- app_assoc; simpl; eauto.
Qed.

(** X7.  Every run of [main] pauses exactly once, for 5 seconds, right
    after the line the bucket step printed and right before the call
    that creates the database, whether the bucket was created or not. *)
Theorem main_sleeps_once_after_the_bucket_step (st : state W) :
  exists st' line rest,
    main respond cfg st = (Ok tt, st')
    /\ log st' =
       (log st ++
        [Print "Starting the data lake setup process...";
         Call (bucket_request cfg); Print line; Sleep 5;
         Call (database_request cfg)] ++ rest)%list
    /\ sleeps_of rest = [].
Proof.
  assert (returns_without_sleep
            (nba_data <- fetch_nba_data respond cfg;;
             (if py_bool nba_data
              then upload_data_to_s3 respond cfg nba_data;;
                   create_glue_table respond cfg;;
                   configure_athena respond cfg
              else ret tt);;
             print "Data lake setup complete.")) as Hrest.
  { apply bind_without_sleep; [apply fetch_nba_data_without_sleep|].
    intros nba_data. apply bind_without_sleep;
      [|intros _; apply print_without_sleep].
    destruct (py_bool nba_data); [|apply ret_without_sleep].
    repeat (apply bind_without_sleep; [|intros _]);
      auto using upload_data_to_s3_without_sleep,
        create_glue_table_without_sleep, configure_athena_without_sleep. }
  unfold main. unfold bind at 1. unfold print at 1, emit. cbn [world log].
  match goal with
  | |- context [bind (create_s3_bucket respond cfg) _ ?s] =>
      destruct (bucket_step_log s) as (w1 & line & E1)
  end.
  unfold bind at 1. rewrite E1. cbn [world log].
  unfold bind at 1. unfold time_sleep at 1, emit. cbn [world log].
  match goal with
  | |- context [bind (create_glue_database respond cfg) _ ?s] =>
      destruct (database_step_log s) as (w2 & line2 & E2)
  end.
  unfold bind at 1. rewrite E2. cbn [world log].
  match goal with
  | |- context [bind (fetch_nba_data respond cfg) _ ?s] =>
      destruct (Hrest s) as ([] & st' & new & E & L & S)
  end.
  exists st', line, (Print line2 :: new). split; [exact E|]. split.
  - rewrite L. cbn [world log]. rewrite <- !app_assoc. reflexivity.
  - exact S.
Qed.

End Orchestrator.

(** ** The transcoder and the upload, on each shape of data *)

Lemma dumps_each_strings (keys : list string) :
  dumps_each (map PStr keys) = Ok (map encode_basestring_ascii keys).
Proof.
  induction keys as [|k l IH]; [reflexivity|].
  simpl map. simpl dumps_each. rewrite IH. reflexivity.
Qed.

Lemma texts_of_json_values (records : list pyval) :
  forallb json_value records = true ->
  dumps_each records = Ok (map dumps_text records)
  /\ splitlines (join (str1 char_nl) (map dumps_text records))
     = map dumps_text records.
Proof.
  intros Hv. rewrite forallb_forall in Hv. split.
  - apply dumps_each_texts, Forall_forall.
    intros x Hx. apply json_dumps_value. auto.
  - apply splitlines_join, Forall_forall.
    intros s Hs. apply in_map_iff in Hs as (x & <- & Hx). split.
    + apply no_newline_dumps_text. auto.
    + apply dumps_text_not_empty. auto.
Qed.

Lemma map_Some_inj {A : Type} (l1 l2 : list A) :
  map Some l1 = map Some l2 -> l1 = l2.
Proof.
  revert l2. induction l1 as [|x l1 IH]; intros [|y l2]; simpl;
    try discriminate; [reflexivity|].
  intros [= -> H]. f_equal. auto.
Qed.

Lemma json_loads_texts (records : list pyval) :
  forallb json_value records = true ->
  map json_loads (map dumps_text records) = map Some records.
Proof.
  intros Hv. rewrite forallb_forall in Hv. rewrite map_map.
  apply map_ext_in. intros x Hx. apply json_loads_dumps_text. auto.
Qed.

Section Transcoding.

Context {W : Type}.
Variable respond : forall R : Type, api R -> W -> result R * W.
Variable cfg : config.

Lemma convert_json_values (records : list pyval) (st : state W) :
  forallb json_value records = true ->
  convert_to_line_delimited_json (PList records) st =
    (Ok (join (str1 char_nl) (map dumps_text records)),
     State (world st)
       (log st ++ [Print "Converting data to line-delimited JSON format..."])).
Proof.
  intros Hv. destruct (texts_of_json_values records Hv) as [Hdumps _].
  rewrite convert_returns. simpl py_iter. cbv iota. rewrite Hdumps.
  reflexivity.
Qed.

(** X8.  Given a dict, the transcoder iterates over its keys: the text
    is the keys as JSON strings, one per line, and the values are not
    written. *)
Theorem convert_of_a_dict_writes_its_keys
    (pairs : list (string * pyval)) (st : state W) :
  convert_to_line_delimited_json (PDict pairs) st =
    (Ok (join (str1 char_nl)
           (map (fun kv => encode_basestring_ascii (fst kv)) pairs)),
     State (world st)
       (log st ++ [Print "Converting data to line-delimited JSON format..."])).
Proof.
  rewrite convert_returns. simpl py_iter. cbv iota.
  rewrite <- (map_map fst PStr), dumps_each_strings, map_map.
  reflexivity.
Qed.

(** X9.  Given a value that cannot be iterated over ([None], a bool, an
    int, a plain object), the transcoder catches the [TypeError] of the
    [for], prints it and returns the empty string, and the upload writes
    one object with an empty body. *)
Theorem data_that_is_not_iterable_uploads_an_empty_body
    (data : pyval) (st : state W) :
  iterable data = false ->
  convert_to_line_delimited_json data st =
    (Ok "",
     State (world st)
       (log st ++
        [Print "Converting data to line-delimited JSON format...";
         Print ("Error converting data to JSON: '" ++ type_name_of data
                ++ "' object is not iterable")]))
  /\ written_bodies
       (log (snd (run (upload_data_to_s3 respond cfg data) (world st))))
     = [""].
Proof.
  intros Hdata.
  assert (py_iter data =
          Raise (MkExn TypeError
                   ("'" ++ type_name_of data ++ "' object is not iterable")))
    as Hiter by (destruct data; try discriminate Hdata; reflexivity).
  split.
  - rewrite convert_returns, Hiter. reflexivity.
  - unfold run.
    destruct (upload_data_to_s3_writes respond cfg data (State (world st) []))
      as (body & st' & before & line & Ec & Eu & L).
    rewrite Eu. cbn [snd]. rewrite L.
    rewrite convert_returns, Hiter in Ec.
    injection Ec as <- <-. reflexivity.
Qed.

(** X10.  [upload_data_to_s3] writes what the transcoder returns, and
    only then: when the transcoder returns a string for [data], the
    upload returns normally after exactly one call, a [put_object] to
    the configured bucket under the fixed key with that string as its
    body, whatever S3 answers; when the transcoder raises, as it does
    with the [ValueError] of a circular record, the upload prints the
    exception and returns normally without any call. *)
Theorem upload_writes_what_the_transcoder_returns
    (data : pyobj) (st : state W) :
  (forall body,
     fst (convert_to_line_delimited_json data st) = Ok body ->
     exists st' new,
       upload_data_to_s3 respond cfg data st = (Ok tt, st')
       /\ log st' = (log st ++ new)%list
       /\ calls_of new = [StepUpload]
       /\ written_objects new = [(bucket_name cfg, file_key)]
       /\ written_bodies new = [body])
  /\ (forall e,
        fst (convert_to_line_delimited_json data st) = Raise e ->
        exists st' before line,
          upload_data_to_s3 respond cfg data st = (Ok tt, st')
          /\ log st' = (log st ++ before ++ [Print line])%list
          /\ calls_of before = []
          /\ (isinstance e NoCredentialsError = false ->
              line = "Error uploading data to S3: " ++ exn_str e)).
Proof.
  unfold upload_data_to_s3, try_except, bind at 1, bind at 2.
  rewrite !convert_on_object.
  destruct (match iter_object data with
            | Raise e1 => Raise e1
            | Ok records => dumps_objects records
            end) as [ls|e0];
    [|destruct (isinstance e0 TypeError)]; cbn [fst]; split;
    try (intros ? [=]; fail).
  - intros body [= <-]. unfold bind, call, print, emit. cbn [world log].
    destruct (respond _ _ (world st)) as [[[]|e] w']; cbn [dispatch].
    + do 2 eexists. split; [reflexivity|]. cbn [log].
      rewrite <- !app_assoc. repeat split.
    + destruct (isinstance e NoCredentialsError);
        [|rewrite isinstance_Exception]; cbn [world log];
        do 2 eexists; (split; [reflexivity|]); cbn [log];
        rewrite <- !app_assoc; repeat split.
  - intros body [= <-]. unfold bind, call, print, emit. cbn [world log].
    destruct (respond _ _ (world st)) as [[[]|e] w']; cbn [dispatch].
    + do 2 eexists. split; [reflexivity|]. cbn [log].
      rewrite <- !app_assoc. repeat split.
    + destruct (isinstance e NoCredentialsError);
        [|rewrite isinstance_Exception]; cbn [world log];
        do 2 eexists; (split; [reflexivity|]); cbn [log];
        rewrite <- !app_assoc; repeat split.
  - intros e [= <-]. cbn [dispatch].
    destruct (isinstance e0 NoCredentialsError) eqn:Hn;
      [|rewrite isinstance_Exception]; unfold print, emit; cbn [world log];
      exists (State (world st)
                (log st ++
                 [Print "Converting data to line-delimited JSON format..."]
                 ++ [Print (if isinstance e0 NoCredentialsError
                            then "AWS credentials not found. Please configure your credentials."
                            else "Error uploading data to S3: " ++ exn_str e0)])),
        [Print "Converting data to line-delimited JSON format..."];
      eexists; rewrite Hn; rewrite <- ?app_assoc;
      (split; [reflexivity|]); (split; [reflexivity|]);
      (split; [reflexivity|]); intros; try discriminate; reflexivity.
Qed.

(** X11.  When the records are JSON values, the body [upload_data_to_s3]
    writes decodes, line by line with [json.loads], to the records in
    their order. *)
Theorem uploaded_lines_decode_to_the_records
    (records : list pyval) (w : W) :
  forallb json_value records = true ->
  exists body,
    written_bodies
      (log (snd (run (upload_data_to_s3 respond cfg (PList records)) w)))
    = [body]
    /\ map json_loads (splitlines body) = map Some records.
Proof.
  intros Hv. unfold run.
  destruct (upload_data_to_s3_writes respond cfg (PList records) (State w []))
    as (body & st' & before & line & Ec & Eu & L).
  rewrite (convert_json_values records _ Hv) in Ec.
  injection Ec as <- <-.
  exists (join (str1 char_nl) (map dumps_text records)).
  rewrite Eu. cbn [snd]. rewrite L. split; [reflexivity|].
  destruct (texts_of_json_values records Hv) as [_ ->].
  apply json_loads_texts, Hv.
Qed.

(** X12.  On records that are JSON values the transcoder is injective:
    two batches with the same text are the same batch. *)
Theorem transcoder_is_injective
    (records1 records2 : list pyval) (st1 st2 : state W) :
  forallb json_value records1 = true ->
  forallb json_value records2 = true ->
  fst (convert_to_line_delimited_json (PList records1) st1)
  = fst (convert_to_line_delimited_json (PList records2) st2) ->
  records1 = records2.
Proof.
  intros H1 H2. rewrite !convert_json_values by assumption. simpl.
  intros [= Htext].
  apply (f_equal splitlines) in Htext.
  destruct (texts_of_json_values records1 H1) as [_ E1].
  destruct (texts_of_json_values records2 H2) as [_ E2].
  rewrite E1, E2 in Htext.
  apply (f_equal (map json_loads)) in Htext.
  rewrite !json_loads_texts in Htext by assumption.
  apply map_Some_inj, Htext.
Qed.

End Transcoding.

(** ** The shape of the text *)

Lemma count_newlines_app (s t : string) :
  count_newlines (s ++ t) = count_newlines s + count_newlines t.
Proof.
  induction s as [|c s IH]; simpl; [reflexivity|]. rewrite IH. lia.
Qed.

Lemma count_newlines_line (s : string) :
  no_newline s = true -> count_newlines s = 0.
Proof.
  induction s as [|c s IH]; simpl; [reflexivity|].
  intros H. apply andb_prop in H as [Hc Hs].
  apply negb_true_iff in Hc. rewrite Hc, IH by exact Hs. reflexivity.
Qed.

Lemma count_newlines_join (lines : list string) :
  Forall (fun s => no_newline s = true) lines ->
  count_newlines (join (str1 char_nl) lines) = Nat.pred (List.length lines).
Proof.
  induction 1 as [|x l Hx _ IH]; [reflexivity|].
  destruct l as [|y l].
  - change (join (str1 char_nl) [x]) with x.
    rewrite count_newlines_line by exact Hx. reflexivity.
  - rewrite join_cons2, !count_newlines_app, IH.
    rewrite count_newlines_line by exact Hx. reflexivity.
Qed.

Lemma printable_ascii_app (s t : string) :
  printable_ascii (s ++ t) = printable_ascii s && printable_ascii t.
Proof.
  induction s as [|c s IH]; simpl; [reflexivity|].
  now rewrite IH, andb_assoc.
Qed.

Lemma printable_escape_char (c : ascii) :
  printable_ascii (escape_char c) = true.
Proof. destruct c as [[] [] [] [] [] [] [] []]; reflexivity. Qed.

Lemma printable_encode (s : string) :
  printable_ascii (encode_basestring_ascii s) = true.
Proof.
  unfold encode_basestring_ascii.
  change (printable_ascii (String dquote (escape_chars s ++ str1 dquote)))
    with (printable_ascii (escape_chars s ++ str1 dquote)).
  rewrite printable_ascii_app, andb_true_r.
  induction s as [|c s IH]; simpl; [reflexivity|].
  now rewrite printable_ascii_app, printable_escape_char, IH.
Qed.

Lemma printable_repr_int (z : Z) : printable_ascii (repr_int z) = true.
Proof.
  assert (forall u, printable_ascii (NilEmpty.string_of_uint u) = true) as Hu
    by (induction u; simpl; auto).
  assert (forall u, printable_ascii (NilZero.string_of_uint u) = true) as H.
  { intros u. destruct u; try reflexivity; apply (Hu (_ u)). }
  unfold repr_int. destruct (Z.to_int z); simpl; apply H.
Qed.

Lemma printable_join (sep : string) (parts : list string) :
  printable_ascii sep = true ->
  Forall (fun s => printable_ascii s = true) parts ->
  printable_ascii (join sep parts) = true.
Proof.
  intros Hsep. induction 1 as [|x l Hx _ IH]; [reflexivity|].
  destruct l as [|y l]; [exact Hx|].
  rewrite join_cons2, !printable_ascii_app, Hx, Hsep, IH. reflexivity.
Qed.

(** With [ensure_ascii], json.dumps writes printable ASCII only. *)
Lemma printable_dumps_text (v : pyval) :
  json_value v = true -> printable_ascii (dumps_text v) = true.
Proof.
  induction v as [ | b | z | s | items IH | pairs IH | t ]
    using pyval_induction; intros Hv.
  - reflexivity.
  - destruct b; reflexivity.
  - apply printable_repr_int.
  - apply printable_encode.
  - rewrite json_value_list in Hv. rewrite dumps_text_list by exact Hv.
    rewrite !printable_ascii_app, printable_join; [reflexivity..|].
    rewrite forallb_forall in Hv. rewrite Forall_forall in IH.
    apply Forall_forall. intros s Hs. apply in_map_iff in Hs as (x & <- & Hx).
    auto.
  - rewrite json_value_dict in Hv. apply andb_prop in Hv as [_ Hv].
    rewrite dumps_text_dict by exact Hv.
    rewrite !printable_ascii_app, printable_join; [reflexivity..|].
    rewrite forallb_forall in Hv. rewrite Forall_forall in IH.
    apply Forall_forall. intros s Hs. apply in_map_iff in Hs as (x & <- & Hx).
    unfold member_text.
    rewrite !printable_ascii_app, printable_encode, IH; auto.
  - discriminate.
Qed.

Section Text.

Context {W : Type}.

(** X13.  The text of [N] records that are JSON values holds [N - 1]
    newline characters (none for an empty batch): one between two
    records, none inside a record and none at the end. *)
Theorem text_has_one_newline_between_records
    (records : list pyval) (st : state W) :
  forallb json_value records = true ->
  exists text,
    fst (convert_to_line_delimited_json (PList records) st) = Ok text
    /\ count_newlines text = Nat.pred (List.length records).
Proof.
  intros Hv. rewrite (convert_json_values records st Hv).
  eexists. split; [reflexivity|].
  rewrite count_newlines_join, length_map; [reflexivity|].
  rewrite forallb_forall in Hv. apply Forall_forall.
  intros s Hs. apply in_map_iff in Hs as (x & <- & Hx).
  apply no_newline_dumps_text. auto.
Qed.

(** X14.  Every line of the text is printable ASCII, whatever
    characters the strings of the records hold: json.dumps escapes the
    others. *)
Theorem lines_are_printable_ascii (records : list pyval) (st : state W) :
  forallb json_value records = true ->
  exists text,
    fst (convert_to_line_delimited_json (PList records) st) = Ok text
    /\ forallb printable_ascii (splitlines text) = true.
Proof.
  intros Hv. rewrite (convert_json_values records st Hv).
  eexists. split; [reflexivity|].
  destruct (texts_of_json_values records Hv) as [_ ->].
  rewrite forallb_forall in Hv |- *.
  intros s Hs. apply in_map_iff in Hs as (x & <- & Hx).
  apply printable_dumps_text. auto.
Qed.

End Text.

(** ** Configuration *)

Lemma prefix_same_head (a x y : string) :
  String.prefix (a ++ x) (a ++ y) = String.prefix x y.
Proof.
  induction a as [|c a IH]; simpl; [reflexivity|].
  destruct (ascii_dec c c) as [_|Hc]; [exact IH | now elim Hc].
Qed.

Section Configuration.

Context {W : Type}.
Variable respond : forall R : Type, api R -> W -> result R * W.
Variable cfg : config.

Lemma create_glue_table_declares (w : W) :
  declared_locations (log (snd (run (create_glue_table respond cfg) w)))
  = ["s3://" ++ py_str (bucket_name cfg) ++ "/raw-data/"].
Proof.
  unfold run, create_glue_table, try_except, bind, call, print, emit.
  simpl. destruct (respond _ _ w) as [[[]|e] w']; simpl; [reflexivity|].
  pick_handler e; reflexivity.
Qed.

Lemma configure_athena_requests (w : W) :
  athena_requests (log (snd (run (configure_athena respond cfg) w)))
  = [("CREATE DATABASE IF NOT EXISTS nba_analytics",
      glue_database_name cfg,
      "s3://" ++ py_str (bucket_name cfg) ++ "/athena-results/")].
Proof.
  unfold run, configure_athena, try_except, bind, call, print, emit.
  simpl. destruct (respond _ _ w) as [[[]|e] w']; simpl; [reflexivity|].
  pick_handler e; reflexivity.
Qed.

(** X15.  When [AWS_REGION] is not set, [region] is [None], which is not
    ["us-east-1"]: the bucket is created with
    [CreateBucketConfiguration={"LocationConstraint": None}], and not
    with the call of the default region. *)
Theorem unset_region_is_passed_as_constraint (w : W) :
  region cfg = None ->
  calls_of_bucket (log (snd (run (create_s3_bucket respond cfg) w)))
  = [(bucket_name cfg, Some None)].
Proof.
  intros Hregion. unfold run. rewrite create_s3_bucket_on_answer.
  unfold bucket_request. rewrite Hregion. simpl.
  destruct (respond _ _ _) as [r w']. reflexivity.
Qed.

(** X16.  When [S3_BUCKET_NAME] is not set, the f-strings write [None]
    into the locations: the table is declared at [s3://None/raw-data/]
    and the query results go to [s3://None/athena-results/], while
    [put_object] is called with [Bucket=None]. *)
Theorem unset_bucket_gives_locations_under_None
    (data : pyval) (w1 w2 w3 : W) :
  bucket_name cfg = None ->
  declared_locations (log (snd (run (create_glue_table respond cfg) w1)))
    = ["s3://None/raw-data/"]
  /\ map (fun qdo => snd qdo)
       (athena_requests (log (snd (run (configure_athena respond cfg) w2))))
     = ["s3://None/athena-results/"]
  /\ written_objects
       (log (snd (run (upload_data_to_s3 respond cfg data) w3)))
     = [(None, "raw-data/nba_player_data.jsonl")].
Proof.
  intros Hbucket. split; [|split].
  - rewrite create_glue_table_declares, Hbucket. reflexivity.
  - rewrite configure_athena_requests, Hbucket. reflexivity.
  - unfold run.
    destruct (upload_data_to_s3_writes respond cfg data (State w3 []))
      as (body & st' & before & line & Ec & Eu & L).
    rewrite Eu. cbn [snd]. rewrite L. rewrite Hbucket.
    rewrite convert_returns in Ec.
    destruct (py_iter data) as [records|e0];
      [destruct (dumps_each records) as [ls|e0]|];
      injection Ec as _ <-; reflexivity.
Qed.

(** X17.  For every configuration, the location of the table and the
    output location of the queries are apart: neither is a prefix of
    the other, so query results never land among the data of the
    table. *)
Theorem query_results_and_table_data_are_apart (w1 w2 : W) :
  exists location statement database output,
    declared_locations (log (snd (run (create_glue_table respond cfg) w1)))
      = [location]
    /\ athena_requests (log (snd (run (configure_athena respond cfg) w2)))
       = [(statement, database, output)]
    /\ String.prefix location output = false
    /\ String.prefix output location = false.
Proof.
  do 4 eexists. split; [apply create_glue_table_declares|].
  split; [apply configure_athena_requests|].
  rewrite <- !(append_assoc "s3://"), !prefix_same_head. split; reflexivity.
Qed.

(** X18.  Only the two S3 functions have a clause for missing
    credentials: a [NoCredentialsError] makes [create_s3_bucket] and
    [upload_data_to_s3] print "AWS credentials not found...", while
    [create_glue_database], [create_glue_table] and [configure_athena]
    report it through their generic error line. *)
Theorem only_the_s3_steps_single_out_missing_credentials
    (st : state W) (e : exn) (w' : W) :
  exn_cls e = NoCredentialsError ->
  (respond _ (bucket_request cfg) (world st) = (Raise e, w') ->
   create_s3_bucket respond cfg st =
     (Ok tt,
      State w'
        (log st ++
         [Call (bucket_request cfg);
          Print "AWS credentials not found. Please configure your credentials."])))
  /\ (respond _ (database_request cfg) (world st) = (Raise e, w') ->
      create_glue_database respond cfg st =
        (Ok tt,
         State w'
           (log st ++
            [Call (database_request cfg);
             Print ("Error creating Glue database: " ++ exn_str e)])))
  /\ (respond _ (table_request cfg) (world st) = (Raise e, w') ->
      create_glue_table respond cfg st =
        (Ok tt,
         State w'
           (log st ++
            [Call (table_request cfg);
             Print ("Error creating Glue table: " ++ exn_str e)])))
  /\ (respond _
        (athena_start_query_execution
           "CREATE DATABASE IF NOT EXISTS nba_analytics"
           (glue_database_name cfg) (athena_output_location cfg))
        (world st) = (Raise e, w') ->
      configure_athena respond cfg st =
        (Ok tt,
         State w'
           (log st ++
            [Call (athena_start_query_execution
                     "CREATE DATABASE IF NOT EXISTS nba_analytics"
                     (glue_database_name cfg) (athena_output_location cfg));
             Print ("Error configuring Athena: " ++ exn_str e)])))
  /\ (forall data body,
        fst (convert_to_line_delimited_json data st) = Ok body ->
        respond _ (s3_put_object (bucket_name cfg) file_key body) (world st)
          = (Raise e, w') ->
        exists before,
          upload_data_to_s3 respond cfg data st =
            (Ok tt,
             State w'
               (log st ++ before ++
                [Call (s3_put_object (bucket_name cfg) file_key body);
                 Print "AWS credentials not found. Please configure your credentials."]))).
Proof.
  intros Hcls.
  assert (isinstance e BucketAlreadyOwnedByYou = false
          /\ isinstance e NoCredentialsError = true
          /\ isinstance e AlreadyExistsException = false) as (Hb & Hn & Ha).
  { destruct e as [c msg]. simpl in Hcls. subst c. repeat split. }
  split; [|split; [|split; [|split]]]; [intros Hanswer ..|].
  - rewrite create_s3_bucket_on_answer, Hanswer, Hb, Hn. reflexivity.
  - unfold create_glue_database, try_except, bind at 1, call.
    fold (database_request cfg). rewrite Hanswer. simpl.
    rewrite Ha, isinstance_Exception.
    unfold print, emit. simpl. rewrite <- app_assoc. reflexivity.
  - unfold create_glue_table, try_except, bind at 1, call.
    fold (table_request cfg). rewrite Hanswer. simpl.
    rewrite Ha, isinstance_Exception.
    unfold print, emit. simpl. rewrite <- app_assoc. reflexivity.
  - unfold configure_athena, try_except, bind at 1, call.
    rewrite Hanswer. simpl. rewrite isinstance_Exception.
    unfold print, emit. simpl. rewrite <- app_assoc. reflexivity.
  - intros data body Hbody Hanswer.
    unfold upload_data_to_s3, try_except, bind at 1.
    rewrite convert_on_object in Hbody |- *.
    destruct (match iter_object data with
              | Raise e1 => Raise e1
              | Ok records => dumps_objects records
              end) as [ls|e0];
      [|destruct (isinstance e0 TypeError); [|discriminate Hbody]];
      cbn [fst] in Hbody; injection Hbody as <-;
      unfold bind at 1; unfold call at 1; cbn [world log];
      rewrite Hanswer; cbn [dispatch]; rewrite Hn;
      unfold print, emit; cbn [world log];
      rewrite <- !app_assoc; eexists; reflexivity.
Qed.

End Configuration.

(** ** Runs against the model provider *)

Definition players_url : string :=
  "https://api.sportsdata.io/v3/nba/scores/json/Players".

(** An account with credentials where the sports API answers with an
    empty array. *)
Definition empty_answer_account : cloud :=
  fresh_account FullCredentials (answer 200 "OK" (Ok (PList []))).

(** An account where the sports API does not answer in time. *)
Definition read_timeout : exn :=
  MkExn ReadTimeout
    "HTTPSConnectionPool(host='api.sportsdata.io', port=443): Read timed out.".

Definition timeout_account : cloud :=
  fresh_account FullCredentials (Raise read_timeout).

(** An account where the sports API cannot be reached. *)
Definition unreachable : exn :=
  MkExn ConnectionError
    "HTTPSConnectionPool(host='api.sportsdata.io', port=443): Max retries exceeded".

Definition unreachable_account : cloud :=
  fresh_account FullCredentials (Raise unreachable).

(** An account where the request is refused by requests itself. *)
Definition too_many_redirects : exn :=
  MkExn RequestException "Exceeded 30 redirects.".

Definition redirect_account : cloud :=
  fresh_account FullCredentials (Raise too_many_redirects).

(** An account where the sports API answers 404. *)
Definition not_found_response : response :=
  Response 404 "Not Found"
    "https://api.sportsdata.io/v3/nba/scores/json/Players" (Ok PNone).

Definition not_found_account : cloud :=
  fresh_account FullCredentials (Ok not_found_response).




(** The account as a first complete run of the script leaves it. *)
Definition provisioned_account : cloud :=
  world (snd (run (main cloud_respond sample_config)
                (fresh_account FullCredentials
                   (answer 200 "OK" (Ok (PList two_players)))))).

Definition us_east_config : config :=
  {| region := Some "us-east-1";
     bucket_name := Some "sports-analytics-data-lake";
     glue_database_name := Some "glue_nba_data_lake";
     api_key := Some "0123456789abcdef";
     nba_endpoint := Some players_url |}.


(** The end-to-end scenario: with two records fetched, the six steps
    are called once each, and the object written holds two lines. *)
Example two_players_end_to_end :
  let final :=
    snd (run (main cloud_respond sample_config)
           (fresh_account FullCredentials
              (answer 200 "OK" (Ok (PList two_players))))) in
  calls_of (log final)
  = [StepBucket; StepDatabase; StepFetch; StepUpload; StepTable; StepAthena]
  /\ map (fun o => List.length (splitlines (snd o))) (objects (world final))
     = [2]
  /\ tables (world final) = [("glue_nba_data_lake", "nba_players")]
  /\ statements (world final)
     = ["CREATE DATABASE IF NOT EXISTS nba_analytics"].
Proof. repeat split. Qed.

Lemma main_skips_rest_on_empty_fetch_witness :
  let st := State empty_answer_account [] in
  let st1 := snd (before_fetch cloud_respond sample_config st) in
  let st2 := snd (fetch_nba_data cloud_respond sample_config st1) in
  main cloud_respond sample_config st =
    (Ok tt, State (world st2) (log st2 ++ [Print "Data lake setup complete."]))
  /\ exists new,
       log st2 = (log st ++ new)%list
       /\ calls_of new = [StepBucket; StepDatabase; StepFetch].
Proof.
  intros st st1 st2.
  apply (main_skips_rest_on_empty_fetch cloud_respond sample_config st st1 st2);
    reflexivity.
Defined.

(** A read timeout, a refused connection, a failure of requests itself
    and a 404 each give the empty list and their line. *)
Lemma fetch_degrades_to_empty_witness :
  fetch_nba_data cloud_respond sample_config (State timeout_account []) =
    (Ok (PList []),
     State timeout_account
       [Call (players_request sample_config);
        Print "Request timed out. Please try again."])
  /\ fetch_nba_data cloud_respond sample_config (State unreachable_account [])
     = (Ok (PList []),
        State unreachable_account
          [Call (players_request sample_config);
           Print "Network connection error. Please check your internet connection."])
  /\ fetch_nba_data cloud_respond sample_config (State redirect_account [])
     = (Ok (PList []),
        State redirect_account
          [Call (players_request sample_config);
           Print "An error occurred: Exceeded 30 redirects."])
  /\ exists e,
       raise_for_status not_found_response = Raise e
       /\ exn_cls e = HTTPError
       /\ fetch_nba_data cloud_respond sample_config
            (State not_found_account [])
          = (Ok (PList []),
             State not_found_account
               [Call (players_request sample_config);
                Print ("HTTP error occurred: " ++ exn_str e)]).
Proof.
  split; [|split; [|split]].
  - apply (proj1 (fetch_degrades_to_empty cloud_respond sample_config
                    (State timeout_account []) timeout_account)
             read_timeout Timeout); [simpl; auto | reflexivity..].
  - apply (proj1 (fetch_degrades_to_empty cloud_respond sample_config
                    (State unreachable_account []) unreachable_account)
             unreachable ConnectionError); [simpl; auto | reflexivity..].
  - apply (proj1 (fetch_degrades_to_empty cloud_respond sample_config
                    (State redirect_account []) redirect_account)
             too_many_redirects RequestException);
      [simpl; auto | reflexivity..].
  - apply (proj2 (fetch_degrades_to_empty cloud_respond sample_config
                    (State not_found_account []) not_found_account)
             not_found_response); [reflexivity | simpl; lia].
Defined.

(** Run a second time on the account the first run left, each of the
    three creations finds its resource and reports it as existing. *)
Lemma already_exists_is_success_witness :
  let st := State provisioned_account [] in
  create_s3_bucket cloud_respond sample_config st =
    (Ok tt,
     State provisioned_account
       [Call (bucket_request sample_config);
        Print "S3 bucket 'sports-analytics-data-lake' already exists and is owned by you."])
  /\ create_glue_database cloud_respond sample_config st =
       (Ok tt,
        State provisioned_account
          [Call (database_request sample_config);
           Print "Glue database 'glue_nba_data_lake' already exists."])
  /\ create_glue_table cloud_respond sample_config st =
       (Ok tt,
        State provisioned_account
          [Call (table_request sample_config);
           Print "Glue table 'nba_players' already exists."]).
Proof.
  intros st. split; [|split].
  - apply (already_exists_is_success cloud_respond sample_config st
             (client_error BucketAlreadyOwnedByYou
                "BucketAlreadyOwnedByYou" "CreateBucket"
                "Your previous request to create the named bucket succeeded and you already own it.")
             provisioned_account); reflexivity.
  - apply (already_exists_is_success cloud_respond sample_config st
             (client_error AlreadyExistsException
                "AlreadyExistsException" "CreateDatabase"
                "Database already exists.")
             provisioned_account); reflexivity.
  - apply (already_exists_is_success cloud_respond sample_config st
             (client_error AlreadyExistsException
                "AlreadyExistsException" "CreateTable"
                "Table already exists.")
             provisioned_account); reflexivity.
Defined.

Lemma region_decides_location_constraint_witness :
  calls_of_bucket
    (log (snd (run (create_s3_bucket cloud_respond us_east_config)
                 empty_answer_account)))
  = [(Some "sports-analytics-data-lake", None)]
  /\ calls_of_bucket
       (log (snd (run (create_s3_bucket cloud_respond sample_config)
                    empty_answer_account)))
     = [(Some "sports-analytics-data-lake", Some (Some "eu-west-1"))].
Proof.
  split.
  - apply (proj1 (region_decides_location_constraint cloud_respond
                    us_east_config empty_answer_account)).
    reflexivity.
  - apply (proj2 (region_decides_location_constraint cloud_respond
                    sample_config empty_answer_account) "eu-west-1").
    + reflexivity.
    + discriminate.
Defined.


Lemma declared_location_covers_upload_witness :
  exists location key,
    declared_locations
      (log (snd (run (create_glue_table cloud_respond sample_config)
                   provisioned_account)))
      = [location]
    /\ written_objects
         (log (snd (run (upload_data_to_s3 cloud_respond sample_config
                           (PList two_players))
                      provisioned_account)))
       = [(Some "sports-analytics-data-lake", key)]
    /\ location = "s3://sports-analytics-data-lake/raw-data/"
    /\ key = "raw-data/nba_player_data.jsonl"
    /\ String.prefix location (s3_uri "sports-analytics-data-lake" key) = true.
Proof.
  apply (declared_location_covers_upload cloud_respond sample_config
           "sports-analytics-data-lake" (PList two_players)
           provisioned_account provisioned_account).
  reflexivity.
Defined.



(** A batch that holds itself: [data = [record]] then
    [data.append(data)].  Its second record cannot be serialized, and
    json.dumps says so with a [ValueError]. *)
Definition batch_holding_itself : pyobj :=
  SelfList [player 1 "A" "B" "X" "G" 10].


Lemma lines_parse_back_to_records_witness :
  exists text,
    convert_to_line_delimited_json (PList two_players)
      (State provisioned_account []) =
      (Ok text,
       State provisioned_account
         [Print "Converting data to line-delimited JSON format..."])
    /\ List.length (splitlines text) = 2
    /\ forall i record,
         nth_error two_players i = Some record ->
         exists line,
           nth_error (splitlines text) i = Some line
           /\ json_dumps record = Ok line
           /\ json_loads line = Some record.
Proof.
  apply (lines_parse_back_to_records two_players
           (State provisioned_account [])).
  reflexivity.
Defined.

(** ** Further runs against the model provider *)

Definition two_players_response : response :=
  Response 200 "OK" players_url (Ok (PList two_players)).

Definition two_players_account : cloud :=
  fresh_account FullCredentials (Ok two_players_response).

(** The API answers 200 with a body that is not JSON. *)
Definition html_response : response :=
  Response 200 "OK" players_url
    (Raise (MkExn JSONDecodeError
              "Expecting value: line 1 column 1 (char 0)")).

Definition html_account : cloud :=
  fresh_account FullCredentials (Ok html_response).

(** The connection to the API cannot be opened in time. *)
Definition connect_timeout : exn :=
  MkExn ConnectTimeout
    "HTTPSConnectionPool(host='api.sportsdata.io', port=443): Max retries exceeded".

Definition connect_timeout_account : cloud :=
  fresh_account FullCredentials (Raise connect_timeout).

(** The API answers 200 with an error object instead of an array. *)
Definition error_object : pyval :=
  PDict [ ("statusCode", PInt 401); ("message", PStr "Access denied") ].

Definition error_object_account : cloud :=
  fresh_account FullCredentials
    (Ok (Response 200 "OK" players_url (Ok error_object))).

Definition no_region_config : config :=
  {| region := None;
     bucket_name := Some "sports-analytics-data-lake";
     glue_database_name := Some "glue_nba_data_lake";
     api_key := Some "0123456789abcdef";
     nba_endpoint := Some players_url |}.

Definition no_bucket_config : config :=
  {| region := Some "eu-west-1";
     bucket_name := None;
     glue_database_name := Some "glue_nba_data_lake";
     api_key := Some "0123456789abcdef";
     nba_endpoint := Some players_url |}.

Definition no_credentials_account : cloud :=
  fresh_account NoCredentials (Ok two_players_response).

Definition unable_to_locate : exn :=
  MkExn NoCredentialsError "Unable to locate credentials".

Lemma fetch_returns_decoded_body_witness :
  fetch_nba_data cloud_respond sample_config (State two_players_account []) =
    (Ok (PList two_players),
     State two_players_account
       [Call (players_request sample_config);
        Print "Fetched NBA data successfully."]).
Proof.
  apply (fetch_returns_decoded_body cloud_respond sample_config
           (State two_players_account []) two_players_response
           two_players_account (PList two_players)).
  - reflexivity.
  - left. reflexivity.
  - reflexivity.
Defined.

Lemma fetch_failure_gives_empty_list_witness :
  exists new,
    fetch_nba_data cloud_respond sample_config (State html_account []) =
      (Ok (PList []), State html_account new)
    /\ calls_of new = [StepFetch].
Proof.
  apply (fetch_failure_gives_empty_list cloud_respond sample_config
           (State html_account [])
           (MkExn JSONDecodeError "Expecting value: line 1 column 1 (char 0)")
           html_account).
  right. exists html_response. split; [reflexivity|]. right.
  split; reflexivity.
Defined.

Lemma undecodable_body_is_logged_as_fetched_witness :
  exists line,
    fetch_nba_data cloud_respond sample_config (State html_account []) =
      (Ok (PList []),
       State html_account
         [Call (players_request sample_config);
          Print "Fetched NBA data successfully.";
          Print line]).
Proof.
  apply (undecodable_body_is_logged_as_fetched cloud_respond sample_config
           (State html_account []) html_response html_account
           (MkExn JSONDecodeError "Expecting value: line 1 column 1 (char 0)"));
    reflexivity.
Defined.

Lemma connection_clause_comes_before_timeout_witness :
  isinstance connect_timeout Timeout = true
  /\ fetch_nba_data cloud_respond sample_config
       (State connect_timeout_account []) =
     (Ok (PList []),
      State connect_timeout_account
        [Call (players_request sample_config);
         Print "Network connection error. Please check your internet connection."]).
Proof.
  split; [reflexivity|].
  apply (connection_clause_comes_before_timeout cloud_respond sample_config
           (State connect_timeout_account []) connect_timeout
           connect_timeout_account); reflexivity.
Defined.

Lemma main_goes_on_iff_data_is_truthy_witness :
  exists st' new,
    main cloud_respond sample_config (State error_object_account []) =
      (Ok tt, st')
    /\ log st' = new
    /\ calls_of new =
       [StepBucket; StepDatabase; StepFetch;
        StepUpload; StepTable; StepAthena].
Proof.
  apply (main_goes_on_iff_data_is_truthy cloud_respond sample_config
           (State error_object_account [])
           (snd (before_fetch cloud_respond sample_config
                   (State error_object_account [])))
           (snd (fetch_nba_data cloud_respond sample_config
                   (snd (before_fetch cloud_respond sample_config
                           (State error_object_account [])))))
           error_object);
    reflexivity.
Defined.

Lemma data_that_is_not_iterable_uploads_an_empty_body_witness :
  convert_to_line_delimited_json (PInt 5) (State two_players_account []) =
    (Ok "",
     State two_players_account
       [Print "Converting data to line-delimited JSON format...";
        Print "Error converting data to JSON: 'int' object is not iterable"])
  /\ written_bodies
       (log (snd (run (upload_data_to_s3 cloud_respond sample_config (PInt 5))
                    two_players_account)))
     = [""].
Proof.
  apply (data_that_is_not_iterable_uploads_an_empty_body cloud_respond sample_config
           (PInt 5) (State two_players_account [])).
  reflexivity.
Defined.

Lemma uploaded_lines_decode_to_the_records_witness :
  exists body,
    written_bodies
      (log (snd (run (upload_data_to_s3 cloud_respond sample_config
                        (PList two_players))
                   provisioned_account)))
    = [body]
    /\ map json_loads (splitlines body) = map Some two_players.
Proof.
  apply (uploaded_lines_decode_to_the_records cloud_respond sample_config
           two_players provisioned_account).
  reflexivity.
Defined.

Lemma transcoder_is_injective_witness :
  [player 1 "A" "B" "X" "G" 10] = [player 1 "A" "B" "X" "G" 10].
Proof.
  apply (transcoder_is_injective
           [player 1 "A" "B" "X" "G" 10] [player 1 "A" "B" "X" "G" 10]
           (State two_players_account []) (State provisioned_account []));
    reflexivity.
Defined.

Lemma text_has_one_newline_between_records_witness :
  exists text,
    fst (convert_to_line_delimited_json (PList two_players)
           (State two_players_account [])) = Ok text
    /\ count_newlines text = 1.
Proof.
  apply (text_has_one_newline_between_records two_players
           (State two_players_account [])).
  reflexivity.
Defined.

Lemma lines_are_printable_ascii_witness :
  exists text,
    fst (convert_to_line_delimited_json
           (PList [PStr (String "233" (String "010" "t"))])
           (State two_players_account [])) = Ok text
    /\ forallb printable_ascii (splitlines text) = true.
Proof.
  apply (lines_are_printable_ascii
           [PStr (String "233" (String "010" "t"))]
           (State two_players_account [])).
  reflexivity.
Defined.

Lemma unset_region_is_passed_as_constraint_witness :
  calls_of_bucket
    (log (snd (run (create_s3_bucket cloud_respond no_region_config)
                 two_players_account)))
  = [(Some "sports-analytics-data-lake", Some None)].
Proof.
  apply (unset_region_is_passed_as_constraint cloud_respond no_region_config
           two_players_account).
  reflexivity.
Defined.

Lemma unset_bucket_gives_locations_under_None_witness :
  declared_locations
    (log (snd (run (create_glue_table cloud_respond no_bucket_config)
                 provisioned_account)))
    = ["s3://None/raw-data/"]
  /\ map (fun qdo => snd qdo)
       (athena_requests
          (log (snd (run (configure_athena cloud_respond no_bucket_config)
                       provisioned_account))))
     = ["s3://None/athena-results/"]
  /\ written_objects
       (log (snd (run (upload_data_to_s3 cloud_respond no_bucket_config
                         (PList two_players))
                    provisioned_account)))
     = [(None, "raw-data/nba_player_data.jsonl")].
Proof.
  apply (unset_bucket_gives_locations_under_None cloud_respond
           no_bucket_config (PList two_players)
           provisioned_account provisioned_account provisioned_account).
  reflexivity.
Defined.

Lemma only_the_s3_steps_single_out_missing_credentials_witness :
  let st := State no_credentials_account [] in
  create_s3_bucket cloud_respond sample_config st =
    (Ok tt,
     State no_credentials_account
       [Call (bucket_request sample_config);
        Print "AWS credentials not found. Please configure your credentials."])
  /\ create_glue_database cloud_respond sample_config st =
       (Ok tt,
        State no_credentials_account
          [Call (database_request sample_config);
           Print "Error creating Glue database: Unable to locate credentials"]).
Proof.
  intros st.
  pose proof (only_the_s3_steps_single_out_missing_credentials cloud_respond
                sample_config st unable_to_locate no_credentials_account
                eq_refl) as (Hbucket & Hdatabase & _).
  split; [apply Hbucket | apply Hdatabase]; reflexivity.
Defined.

Lemma upload_writes_what_the_transcoder_returns_witness :
  (exists st' new,
     upload_data_to_s3 cloud_respond sample_config (PList two_players)
       (State provisioned_account []) = (Ok tt, st')
     /\ log st' = new
     /\ calls_of new = [StepUpload]
     /\ written_objects new
        = [(Some "sports-analytics-data-lake", "raw-data/nba_player_data.jsonl")]
     /\ List.length (written_bodies new) = 1)
  /\ (exists st' before line,
        upload_data_to_s3 cloud_respond sample_config batch_holding_itself
          (State provisioned_account []) = (Ok tt, st')
        /\ log st' = (before ++ [Print line])%list
        /\ calls_of before = []
        /\ line = "Error uploading data to S3: Circular reference detected").
Proof.
  split.
  - destruct (proj1 (upload_writes_what_the_transcoder_returns cloud_respond
                       sample_config (PList two_players)
                       (State provisioned_account []))
                _ eq_refl) as (st' & new & Eu & L & C & O & B).
    exists st', new. rewrite B. repeat split; assumption.
  - destruct (proj2 (upload_writes_what_the_transcoder_returns cloud_respond
                       sample_config batch_holding_itself
                       (State provisioned_account []))
                _ eq_refl) as (st' & before & line & Eu & L & C & Hline).
    exists st', before, line. repeat split; try assumption.
    apply Hline. reflexivity.
Defined.
